(** * orcabridge.source: sources of tagged packets

    A shallow embedding of [src/orcabridge/source.py]: the [Source] base
    class and [GlobSource], the source that enumerates the files under a
    directory that match a glob pattern and emits one (tag, packet) pair
    per match.

    Layout:
    - [PyStr]    the few [str] methods the code and [pathlib] rely on;
    - [Fnmatch]  the standard library's shell-style name matching;
    - [Pathlib]  pure POSIX paths, a filesystem, and [Path.glob];
    - the object model of [source.py] itself: [GlobSource], its generator,
      [Source.__iter__], [__repr__], [__hash__];
    - the properties of the source descriptor and of the streams it
      produces.

    Python strings are modelled by [string]; file names are taken to be
    ASCII, so that one character is one [ascii]. *)

From Stdlib Require Import ZArith Ascii String List Lia.
From stdpp Require Import base option list strings gmap.

Local Open Scope string_scope.
Local Open Scope list_scope.

(** ** The [str] methods used by the code *)

Module PyStr.

(** [s.split(sep)] for a one-character separator. *)
Fixpoint split (sep : ascii) (s : string) : list string :=
  match s with
  | EmptyString => [EmptyString]
  | String c s' =>
      if Ascii.eqb c sep then EmptyString :: split sep s'
      else match split sep s' with
           | [] => [String c EmptyString]
           | w :: ws => String c w :: ws
           end
  end.

(** [s.rfind(c)]: the highest index of [c] in [s], or [-1]. *)
Fixpoint rfind_from (c : ascii) (s : string) (i last : Z) : Z :=
  match s with
  | EmptyString => last
  | String a s' => rfind_from c s' (i + 1) (if Ascii.eqb a c then i else last)
  end.

Definition rfind (c : ascii) (s : string) : Z := rfind_from c s 0 (-1).

Definition len (s : string) : Z := Z.of_nat (String.length s).

(** [s[:i]] for [0 <= i]. *)
Definition slice_to (i : Z) (s : string) : string :=
  String.substring 0 (Z.to_nat i) s.

Definition startswith (c : ascii) (s : string) : bool :=
  match s with
  | String a _ => Ascii.eqb a c
  | EmptyString => false
  end.

Fixpoint endswith (c : ascii) (s : string) : bool :=
  match s with
  | EmptyString => false
  | String a EmptyString => Ascii.eqb a c
  | String _ s' => endswith c s'
  end.

(** [c in s] *)
Fixpoint contains (c : ascii) (s : string) : bool :=
  match s with
  | EmptyString => false
  | String a s' => Ascii.eqb a c || contains c s'
  end.

(** [sub in s] for a two-character [sub]. *)
Fixpoint contains2 (c1 c2 : ascii) (s : string) : bool :=
  match s with
  | String a ((String b _) as s') =>
      (Ascii.eqb a c1 && Ascii.eqb b c2) || contains2 c1 c2 s'
  | _ => false
  end.

End PyStr.

(** ** [fnmatch]: shell-style matching of one name against one pattern

    [fnmatch.translate] turns a pattern into a regular expression:
    [*] matches any run of characters, [?] one character, [[seq]] one
    character of [seq] and [[!seq]] one character outside it; a [[]
    without its closing bracket stands for itself.  The regular
    expression is kept here as a list of tokens. *)

Module Fnmatch.

Inductive item : Type :=
| Lit (c : ascii)
| Range (lo hi : ascii).

Inductive tok : Type :=
| TStar
| TAny
| TChar (c : ascii)
| TSet (negated : bool) (items : list item).

(** The text of a bracket expression, when the bracket is closed: a
    leading [!] and a [[]]] directly after it belong to the text. *)
Fixpoint until_close (s : string) : option string :=
  match s with
  | EmptyString => None
  | String c s' =>
      if Ascii.eqb c "]" then Some EmptyString
      else String c <$> until_close s'
  end.

Definition bracket (s : string) : option string :=
  let '(bang, s1) :=
    match s with
    | String "!" r => ("!", r)
    | _ => (EmptyString, s)
    end in
  let '(close, s2) :=
    match s1 with
    | String "]" r => ("]", r)
    | _ => (EmptyString, s1)
    end in
  (fun body => bang +:+ close +:+ body) <$> until_close s2.

(** The text of a bracket expression is cut into chunks at the hyphens
    that stand for a range.  The first character of the text (the
    first two after a leading [!]) and the two characters after a
    range hyphen never are one; a hyphen that ends the text is
    literal. *)
Fixpoint chunks_from (guard : nat) (cur : string) (s : string) : list string :=
  match s with
  | EmptyString => [cur]
  | String c rest =>
      match guard with
      | S g => chunks_from g (cur +:+ String c EmptyString) rest
      | O =>
          if Ascii.eqb c "-" then
            match rest with
            | EmptyString => [cur +:+ "-"]
            | _ => cur :: chunks_from 2 EmptyString rest
            end
          else chunks_from 0 (cur +:+ String c EmptyString) rest
      end
  end.

Definition chunks (stuff : string) : list string :=
  chunks_from (if PyStr.startswith "!" stuff then 2 else 1) EmptyString stuff.

Definition first_char (s : string) : ascii :=
  match s with
  | String c _ => c
  | EmptyString => zero
  end.

Fixpoint last_char (s : string) : ascii :=
  match s with
  | EmptyString => zero
  | String c EmptyString => c
  | String _ s' => last_char s'
  end.

Fixpoint but_last (s : string) : string :=
  match s with
  | EmptyString => EmptyString
  | String _ EmptyString => EmptyString
  | String c s' => String c (but_last s')
  end.

Definition but_first (s : string) : string :=
  match s with
  | String _ s' => s'
  | EmptyString => EmptyString
  end.

(** Empty ranges are removed, from the last one backwards: where a
    chunk ends above the start of the next, the two end characters go
    and the chunks are joined. *)
Fixpoint remove_empty_ranges (cs : list string) : list string :=
  match cs with
  | [] => []
  | c :: rest =>
      match remove_empty_ranges rest with
      | [] => [c]
      | c1 :: rest' =>
          if (nat_of_ascii (first_char c1) <? nat_of_ascii (last_char c))%nat
          then (but_last c +:+ but_first c1) :: rest'
          else c :: c1 :: rest'
      end
  end.

(** The set as the regular expression reads it: the characters of the
    chunks, every hyphen inside a chunk escaped, and one plain hyphen
    between two chunks. *)
Inductive atom : Type :=
| Char (c : ascii)
| Dash.

Definition atom_char (a : atom) : ascii :=
  match a with
  | Char c => c
  | Dash => "-"
  end.

Fixpoint join_chunks (cs : list string) : list atom :=
  match cs with
  | [] => []
  | [c] => Char <$> list_ascii_of_string c
  | c :: rest => (Char <$> list_ascii_of_string c) ++ Dash :: join_chunks rest
  end.

(** The members of the set: a plain hyphen between two characters
    makes a range, anything else is literal. *)
Fixpoint members_after (lo : ascii) (rest : list atom) : list item :=
  match rest with
  | [] => [Lit lo]
  | Dash :: [] => [Lit lo; Lit "-"]
  | Dash :: hi :: rest' =>
      Range lo (atom_char hi) ::
        match rest' with
        | [] => []
        | x :: rest'' => members_after (atom_char x) rest''
        end
  | Char c :: rest' => Lit lo :: members_after c rest'
  end.

Definition members (atoms : list atom) : list item :=
  match atoms with
  | [] => []
  | x :: rest => members_after (atom_char x) rest
  end.

(** The set is negated when, with the empty ranges gone, its text
    starts with [!]. *)
Definition class_of (stuff : string) : tok :=
  match join_chunks (remove_empty_ranges (chunks stuff)) with
  | Char "!" :: rest => TSet true (members rest)
  | atoms => TSet false (members atoms)
  end.

(** [translate skip pat]: the tokens of [pat]; [skip] characters are
    dropped first (the text of a bracket expression already read). *)
Fixpoint translate (skip : nat) (pat : string) : list tok :=
  match pat with
  | EmptyString => []
  | String c rest =>
      match skip with
      | S k => translate k rest
      | O =>
          if Ascii.eqb c "*" then TStar :: translate 0 rest
          else if Ascii.eqb c "?" then TAny :: translate 0 rest
          else if Ascii.eqb c "[" then
            match bracket rest with
            | Some stuff =>
                class_of stuff :: translate (S (String.length stuff)) rest
            | None => TChar "[" :: translate 0 rest
            end
          else TChar c :: translate 0 rest
      end
  end.

Definition in_item (x : ascii) (i : item) : bool :=
  match i with
  | Lit c => Ascii.eqb x c
  | Range lo hi =>
      (nat_of_ascii lo <=? nat_of_ascii x)%nat
      && (nat_of_ascii x <=? nat_of_ascii hi)%nat
  end.

Definition tok_accepts (t : tok) (x : ascii) : bool :=
  match t with
  | TStar | TAny => true
  | TChar c => Ascii.eqb x c
  | TSet negated items =>
      xorb negated (existsb (in_item x) items)
  end.

(** Whole-name match of the token list ([re.fullmatch]). *)
Fixpoint matches (ts : list tok) (name : string) : bool :=
  match ts with
  | [] => match name with EmptyString => true | _ => false end
  | TStar :: ts' =>
      (fix star (n : string) : bool :=
         matches ts' n
         || match n with
            | EmptyString => false
            | String _ n' => star n'
            end) name
  | t :: ts' =>
      match name with
      | EmptyString => false
      | String x n' => tok_accepts t x && matches ts' n'
      end
  end.

Definition fnmatch (name pat : string) : bool :=
  matches (translate 0 pat) name.

End Fnmatch.


(** ** Exceptions and results *)

Inductive exn : Type :=
| ValueError (msg : string)
| NotImplementedError (msg : string)
| IndexError (msg : string)
| TypeError (msg : string)
| AttributeError (msg : string)
| RuntimeError (msg : string)
| StopIteration
| UserError (code : nat).   (* any other exception of a user-supplied callable *)

Inductive result (A : Type) : Type :=
| Return (a : A)
| Raised (e : exn).
Arguments Return {A} a.
Arguments Raised {A} e.

Definition bind {A B : Type} (r : result A) (k : A -> result B) : result B :=
  match r with
  | Return a => k a
  | Raised e => Raised e
  end.


(** ** [pathlib]: POSIX paths, a filesystem, and [Path.glob]

    The part of the standard library [GlobSource] calls, as CPython 3.12
    implements it for POSIX.  The filesystem holds directories and
    regular files (no symbolic links, no permissions). *)

Module Pathlib.

(** A parsed path: [root] is the empty string (relative), one slash or
    two slashes; [tail] holds the components.  The drive is always
    empty on POSIX and is left out. *)
Record PurePath : Type := mkPath { root : string; tail : list string }.

#[global] Instance PurePath_eq_dec : EqDecision PurePath.
Proof. solve_decision. Defined.

(** [posixpath.splitroot]: the root and the rest.  Exactly two leading
    slashes are a root of their own. *)
Definition splitroot (p : string) : string * string :=
  match p with
  | String "/" ((String "/" (String "/" _)) as r) => ("/", r)
  | String "/" (String "/" r) => ("//", r)
  | String "/" r => ("/", r)
  | _ => (EmptyString, p)
  end.

(** [PurePath._parse_path] *)
Definition parse_path (path : string) : PurePath :=
  let '(rt, rel) := splitroot path in
  mkPath rt
    (filter (fun x => x <> EmptyString /\ x <> ".") (PyStr.split "/" rel)).

(** [os.PathLike]: what [Path(...)] accepts, a string or a path. *)
Inductive PathLike : Type :=
| PathStr (s : string)
| PathObj (p : PurePath).

#[global] Instance PathLike_eq_dec : EqDecision PathLike.
Proof. solve_decision. Defined.

(** [Path(x)] *)
Definition Path (x : PathLike) : PurePath :=
  match x with
  | PathStr s => parse_path s
  | PathObj p => p
  end.

(** [str(p)] *)
Definition str (p : PurePath) : string :=
  let s := root p +:+ String.concat "/" (tail p) in
  if String.eqb s EmptyString then "." else s.

(** [posixpath.join(a, b)] *)
Definition posix_join (a b : string) : string :=
  if PyStr.startswith "/" b then b
  else if String.eqb a EmptyString || PyStr.endswith "/" a then a +:+ b
  else a +:+ "/" +:+ b.

(** [p / key]: the segments are joined, then parsed. *)
Definition truediv (p : PurePath) (key : string) : PurePath :=
  parse_path (posix_join (str p) key).

(** [p._make_child_relpath(name)] *)
Definition make_child_relpath (p : PurePath) (name : string) : PurePath :=
  mkPath (root p) (tail p ++ [name]).

(** [p.name]: the final component. *)
Definition name (p : PurePath) : string := List.last (tail p) EmptyString.

(** [p.stem]: the final component without its last suffix. *)
Definition stem (p : PurePath) : string :=
  let nm := name p in
  let i := PyStr.rfind "." nm in
  if (0 <? i)%Z && (i <? PyStr.len nm - 1)%Z then PyStr.slice_to i nm else nm.

(** *** The filesystem *)

Inductive kind : Type := File | Dir.

#[global] Instance kind_eq_dec : EqDecision kind.
Proof. solve_decision. Defined.

(** Entries are keyed by their absolute path, one component per list
    element; the order of [entries] is the order in which the
    operating system lists them.  The root directory always exists. *)
Record FileSystem : Type := mkFS {
  cwd : list string;
  entries : list (list string * kind)
}.

Definition kind_at (fs : FileSystem) (abs : list string) : option kind :=
  match abs with
  | [] => Some Dir
  | _ => snd <$> List.find (fun e => bool_decide (fst e = abs)) (entries fs)
  end.

(** Path resolution: every component but the last is looked up in an
    existing directory; [..] steps to the parent. *)
Fixpoint walk_from (fs : FileSystem) (cur comps : list string)
  : option (list string) :=
  match comps with
  | [] => Some cur
  | c :: cs =>
      match kind_at fs cur with
      | Some Dir =>
          walk_from fs (if String.eqb c ".." then removelast cur else cur ++ [c]) cs
      | _ => None
      end
  end.

Definition resolve (fs : FileSystem) (p : PurePath) : option (list string) :=
  walk_from fs (if String.eqb (root p) EmptyString then cwd fs else []) (tail p).

Definition stat (fs : FileSystem) (p : PurePath) : option kind :=
  match resolve fs p with
  | Some abs => kind_at fs abs
  | None => None
  end.


Definition is_dir (fs : FileSystem) (p : PurePath) : bool :=
  match stat fs p with Some Dir => true | _ => false end.

Definition child_name (abs q : list string) : option string :=
  if bool_decide (q = abs ++ [List.last q EmptyString]) then Some (List.last q EmptyString)
  else None.

(** [os.scandir(p)]: the names and kinds of the entries of directory
    [p]; [None] stands for [OSError]. *)
Definition scandir (fs : FileSystem) (p : PurePath) : option (list (string * kind)) :=
  match resolve fs p with
  | Some abs =>
      match kind_at fs abs with
      | Some Dir =>
          Some (omap (fun e => (fun n => (n, snd e)) <$> child_name abs (fst e))
                     (entries fs))
      | _ => None
      end
  | None => None
  end.

(** *** Globbing

    A pattern is cut into its components and each component becomes a
    selector; selectors are chained through their successor. *)

Inductive selector : Type :=
| Terminating
| Wildcard (pat : string) (dironly : bool) (successor : selector)
| Parent (successor : selector)
| RecursiveWildcard (dedup : bool) (successor : selector).

Definition double_star : string := "**".

(** [_make_selector]: consecutive [**] components count once; a
    recursive selector followed by another one removes duplicates. *)
Fixpoint make_selector (pattern_parts : list string) : result selector :=
  match pattern_parts with
  | [] => Raised (IndexError "tuple index out of range")
  | pat :: child_parts =>
      if String.eqb pat EmptyString then Return Terminating
      else
        let successor :=
          match child_parts with
          | [] => Return Terminating
          | _ => make_selector child_parts
          end in
        let dironly := match child_parts with [] => false | _ => true end in
        if String.eqb pat double_star then
          match child_parts with
          | next :: _ =>
              if String.eqb next double_star then make_selector child_parts
              else
                bind successor (fun succ =>
                  Return (RecursiveWildcard (bool_decide (double_star ∈ child_parts)) succ))
          | [] => Return (RecursiveWildcard false Terminating)
          end
        else if String.eqb pat ".." then
          bind successor (fun succ => Return (Parent succ))
        else if PyStr.contains2 "*" "*" pat then
          Raised (ValueError "Invalid pattern: '**' can only be an entire path component")
        else
          bind successor (fun succ => Return (Wildcard pat dironly succ))
  end.

Definition subdirs (fs : FileSystem) (p : PurePath) : list PurePath :=
  match scandir fs p with
  | Some es =>
      omap (fun e => match snd e with
                     | Dir => Some (make_child_relpath p (fst e))
                     | File => None
                     end) es
  | None => []
  end.

(** [Path.walk], top down: the directories below [p], each one listed
    when its parent is visited.  [depth] bounds the descent. *)
Fixpoint walk_dirs (fs : FileSystem) (depth : nat) (p : PurePath) : list PurePath :=
  match depth with
  | O => []
  | S d => subdirs fs p ++ flat_map (walk_dirs fs d) (subdirs fs p)
  end.

(** No directory lies deeper than the longest key of the filesystem. *)
Definition fs_depth (fs : FileSystem) : nat :=
  S (list_max (map (fun e => length (fst e)) (entries fs))).

Definition iterate_directories (fs : FileSystem) (p : PurePath) : list PurePath :=
  p :: walk_dirs fs (fs_depth fs) p.

(** A filesystem names no entry [..]: that name is the parent link. *)
Definition no_parent_entries (fs : FileSystem) : Prop :=
  Forall (fun e => List.last (fst e) EmptyString <> "..") (entries fs).

(** The paths of [l] in order, each one at its first occurrence. *)
Fixpoint unique_from (seen l : list PurePath) : list PurePath :=
  match l with
  | [] => []
  | p :: l' =>
      if bool_decide (p ∈ seen) then unique_from seen l'
      else p :: unique_from (p :: seen) l'
  end.

(** [selector._select_from(parent_path)] *)
Fixpoint _select_from (fs : FileSystem) (sel : selector) (parent_path : PurePath)
  : list PurePath :=
  match sel with
  | Terminating => [parent_path]
  | Wildcard pat dironly successor =>
      match scandir fs parent_path with
      | None => []
      | Some es =>
          flat_map
            (fun e =>
               if dironly && negb (bool_decide (snd e = Dir)) then []
               else if Fnmatch.fnmatch (fst e) pat
                    then _select_from fs successor (make_child_relpath parent_path (fst e))
                    else [])
            es
      end
  | Parent successor =>
      _select_from fs successor (make_child_relpath parent_path "..")
  | RecursiveWildcard dedup successor =>
      let found :=
        flat_map (_select_from fs successor) (iterate_directories fs parent_path) in
      if dedup then unique_from [] found else found
  end.

(** [selector.select_from(parent_path)].  The terminating selector
    has [_select_from] only: asking it for [select_from] is an
    [AttributeError]. *)
Definition select_from (fs : FileSystem) (sel : selector) (parent_path : PurePath)
  : result (list PurePath) :=
  match sel with
  | Terminating =>
      Raised (AttributeError
                "'_TerminatingSelector' object has no attribute 'select_from'")
  | _ => Return (if is_dir fs parent_path then _select_from fs sel parent_path else [])
  end.

(** The first half of [Path.glob(pattern)]: the pattern is checked and
    compiled before the filesystem is looked at. *)
Definition compile_pattern (pattern : string) : result selector :=
  if String.eqb pattern EmptyString then
    Raised (ValueError "Unacceptable pattern: ''")
  else
    let pat := parse_path pattern in
    if negb (String.eqb (root pat) EmptyString) then
      Raised (NotImplementedError "Non-relative patterns are unsupported")
    else
      let pattern_parts :=
        tail pat ++ (if PyStr.endswith "/" pattern then [EmptyString] else []) in
      make_selector pattern_parts.

(** The patterns [Path.glob] takes, that is, those it raises no error
    for: the pattern compiles, and not to the terminating selector
    alone. *)
Definition acceptable (pattern : string) : bool :=
  match compile_pattern pattern with
  | Return Terminating => false
  | Return _ => true
  | Raised _ => false
  end.



(** [Path.glob(pattern)] *)
Definition glob (fs : FileSystem) (self : PurePath) (pattern : string)
  : result (list PurePath) :=
  bind (compile_pattern pattern) (fun sel => select_from fs sel self).

End Pathlib.

(** ** Tags, packets and the interpreter state *)

(** The values a tag or a packet holds. *)
Inductive value : Type :=
| VStr (s : string)
| VPath (p : Pathlib.PurePath)
| VInt (n : Z).

#[global] Instance value_eq_dec : EqDecision value.
Proof. solve_decision. Defined.

(** [Tag] and [Packet] are dicts keyed by strings ([types.py]). *)
Abbreviation Tag := (gmap string value).
Abbreviation Packet := (gmap string value).
Abbreviation item := (gmap string value * gmap string value)%type.

(** A function object passed as [tag_function].  Python compares and
    hashes functions by identity: the class attribute
    [GlobSource.default_tag_function] is one object, and every function
    the caller defines is another, told apart by [id]. *)
Inductive callable : Type :=
| DefaultTagFunction
| Lambda (id : nat).

#[global] Instance callable_eq_dec : EqDecision callable.
Proof. solve_decision. Defined.

(** One call of [Path.glob] that reaches the operating system. *)
Inductive access : Type :=
| Scan (root : Pathlib.PurePath) (pattern : string).

(** What the code runs against: the filesystem, the bodies of the
    caller's functions, and the record of filesystem accesses made so
    far. *)
Record World : Type := mkWorld {
  filesystem : Pathlib.FileSystem;
  functions : nat -> Pathlib.PathLike -> result Tag;
  accesses : list access
}.

Definition log (a : access) (w : World) : World :=
  mkWorld (filesystem w) (functions w) (accesses w ++ [a]).

(** [Path(root).glob(pattern)], performed: a refused pattern raises
    before the filesystem is touched. *)
Definition path_glob (root : Pathlib.PurePath) (pattern : string) (w : World)
  : result (list Pathlib.PurePath) * World :=
  match Pathlib.glob (filesystem w) root pattern with
  | Raised e => (Raised e, w)
  | Return files => (Return files, log (Scan root pattern) w)
  end.

(** ** The iterator protocol *)

(** What [next(it)] does: hand over an item, finish (the
    [StopIteration] of the protocol), or let another exception
    through. *)
Inductive outcome : Type :=
| Yield (x : item)
| Stop
| Raise (e : exn).

(** An exception that leaves the body of a generator.  A
    [StopIteration] (or an instance of a subclass) raised inside the
    body reaches the caller of [next] as a [RuntimeError] (PEP 479);
    every other exception passes unchanged. *)
Definition raised_in_generator (e : exn) : exn :=
  match e with
  | StopIteration => RuntimeError "generator raised StopIteration"
  | _ => e
  end.

Class Iterator (G : Type) : Type :=
  next : G -> World -> outcome * G * World.

(** [n] successive calls of [next]. *)
Fixpoint nexts {G : Type} `{Iterator G} (n : nat) (g : G) (w : World)
  : list outcome * G * World :=
  match n with
  | O => ([], g, w)
  | S n' =>
      let '(o, g', w') := next g w in
      let '(os, g'', w'') := nexts n' g' w' in
      (o :: os, g'', w'')
  end.

(** [list(it)] with the exception made explicit: the items handed over,
    then how the iteration ended.  [None] when [fuel] calls of [next] do
    not reach the end. *)
Fixpoint consume {G : Type} `{Iterator G} (fuel : nat) (g : G) (w : World)
  : option (list item * option exn * World) :=
  match fuel with
  | O => None
  | S n =>
      match next g w with
      | (Yield x, g', w') =>
          match consume n g' w' with
          | Some (xs, e, w'') => Some (x :: xs, e, w'')
          | None => None
          end
      | (Stop, _, w') => Some ([], None, w')
      | (Raise e, _, w') => Some ([], Some e, w')
      end
  end.

(** ** [stream.py] and [base.py], as far as [source.py] relies on them *)

(** Modelled from the spec: [SyncStreamFromGenerator] ([stream.py] is
    not part of the sources).  The stream keeps the generator function
    it is given; iterating the stream calls it, so that every iteration
    runs a generator object of its own. *)
Record SyncStream (G : Type) : Type := SyncStreamFromGenerator {
  generator : unit -> G
}.
Arguments SyncStreamFromGenerator {G} generator.
Arguments generator {G} s.

Definition SyncStream__iter__ {G : Type} (stream : SyncStream G) : G :=
  generator stream tt.

(** A source class: an operation whose [forward] takes no input stream. *)
Class Operation (S G : Type) : Type :=
  forward : S -> SyncStream G.

(** Modelled from the spec: [Operation.__call__] ([base.py] is not part
    of the sources).  Invoking an operation returns the stream that
    [forward] builds. *)
Definition Operation__call__ {S G : Type} `{Operation S G} (self : S)
  : SyncStream G :=
  forward self.

(** Modelled from the spec: [Operation.__init__], which [Source.__init__]
    reaches through [super()].  It sets up the object and nothing
    else. *)
Definition Operation__init__ (w : World) : result unit * World :=
  (Return tt, w).

(** ** [class Source(Operation, SyncStream)] *)

Module Source.

(** [Source.__init__]: [super().__init__()], then [self._source = self].
    The back reference [_source] is read by the base classes only and
    is not kept in the model. *)
Definition __init__ (w : World) : result unit * World :=
  Operation__init__ w.

(** The generator object behind [Source.__iter__], whose body is
    [yield from self()]: not started yet, or handing over whatever the
    iterator of the invoked stream hands over, or finished. *)
Inductive iter_state (S G : Type) : Type :=
| Created (self : S)
| Delegating (inner : G)
| Finished.
Arguments Created {S G} self.
Arguments Delegating {S G} inner.
Arguments Finished {S G}.

Definition __iter__ {S G : Type} (self : S) : iter_state S G := Created self.

(** One step of [yield from inner]. *)
Definition delegate {S G : Type} `{Iterator G} (inner : G) (w : World)
  : outcome * iter_state S G * World :=
  match next inner w with
  | (Yield x, inner', w') => (Yield x, Delegating inner', w')
  | (Stop, _, w') => (Stop, Finished, w')
  | (Raise e, _, w') => (Raise e, Finished, w')
  end.

#[global] Instance iter_next {S G : Type} `{Operation S G} `{Iterator G}
  : Iterator (iter_state S G) :=
  fun g w =>
    match g with
    | Created self => delegate (SyncStream__iter__ (Operation__call__ self)) w
    | Delegating inner => delegate inner w
    | Finished => (Stop, Finished, w)
    end.

End Source.

(** ** [class GlobSource(Source)] *)

Module GlobSource.

(** The attributes [__init__] sets.  [tag_function] is typed as the
    constructor's parameter is, [Optional[Callable]]. *)
Record t : Type := mk {
  name : string;
  file_path : Pathlib.PathLike;
  pattern : string;
  tag_function : option callable
}.

(** [default_tag_function = lambda f: {"file_name": Path(f).stem}] *)
Definition default_tag_function (f : Pathlib.PathLike) : Tag :=
  {[ "file_name" := VStr (Pathlib.stem (Pathlib.Path f)) ]}.

(** The default of the [pattern] parameter. *)
Definition default_pattern : string := "*".

(** [GlobSource(name, file_path, pattern, tag_function)] *)
Definition __init__ (name : string) (file_path : Pathlib.PathLike)
  (pattern : string) (tag_function : option callable) (w : World)
  : result t * World :=
  match Source.__init__ w with
  | (Raised e, w') => (Raised e, w')
  | (Return _, w') =>
      let tag_function :=
        match tag_function with
        | None => Some DefaultTagFunction
        | Some f => Some f
        end in
      (Return (mk name file_path pattern tag_function), w')
  end.

(** [self.tag_function(file)]: calling [None] is a [TypeError]. *)
Definition call_tag_function (w : World) (f : option callable)
  (file : Pathlib.PathLike) : result Tag :=
  match f with
  | None => Raised (TypeError "'NoneType' object is not callable")
  | Some DefaultTagFunction => Return (default_tag_function file)
  | Some (Lambda k) => functions w k file
  end.

(** The generator object of the inner [generator()] of [forward]:
    created and not started; suspended at the [yield] of the loop, the
    glob iterator holding the matches still to come; or closed.  The
    model takes the listing when the loop starts. *)
Inductive generator_state : Type :=
| Created (self : t)
| Looping (self : t) (remaining : list Pathlib.PurePath)
| Closed.

(** The loop body: [yield self.tag_function(file), {self.name: file}].
    An exception of the tag function leaves the generator, which is
    closed by it. *)
Definition resume (self : t) (remaining : list Pathlib.PurePath) (w : World)
  : outcome * generator_state * World :=
  match remaining with
  | [] => (Stop, Closed, w)
  | file :: rest =>
      match call_tag_function w (tag_function self) (Pathlib.PathObj file) with
      | Return tag =>
          (Yield (tag, {[ name self := VPath file ]}), Looping self rest, w)
      | Raised e => (Raise (raised_in_generator e), Closed, w)
      end
  end.

#[global] Instance generator_next : Iterator generator_state :=
  fun g w =>
    match g with
    | Created self =>
        match path_glob (Pathlib.Path (file_path self)) (pattern self) w with
        | (Return files, w') => resume self files w'
        | (Raised e, w') => (Raise (raised_in_generator e), Closed, w')
        end
    | Looping self remaining => resume self remaining w
    | Closed => (Stop, Closed, w)
    end.

(** [forward]: the stream built from the generator function, which
    closes over [self]. *)
#[global] Instance forward : Operation t generator_state :=
  fun self => SyncStreamFromGenerator (fun _ => Created self).

(** [__repr__] *)
Definition __repr__ (self : t) : string :=
  "GlobSource("
  +:+ Pathlib.str (Pathlib.truediv (Pathlib.Path (file_path self)) (pattern self))
  +:+ ") ⇒ " +:+ name self.

(** The tuple [__hash__] hashes; the class is given by its name. *)
Definition identity (self : t)
  : string * string * Pathlib.PathLike * string * option callable :=
  ("GlobSource", name self, file_path self, pattern self, tag_function self).

(** [__hash__], over Python's built-in [hash] on such tuples. *)
Definition __hash__
  (hash : string * string * Pathlib.PathLike * string * option callable -> Z)
  (self : t) : Z :=
  hash (identity self).

(** Modelled from the spec: [__eq__] ([source.py] defines [__hash__]
    only; what the base classes in [base.py] and [stream.py] define is
    not part of the sources).  Two instances are equal iff their
    (class, name, file_path, pattern, tag_function) are equal. *)
Definition __eq__ (self other : t) : bool :=
  bool_decide (identity self = identity other).

End GlobSource.

(** ** Several iterators side by side *)

(** The generator objects alive at one time, by index, and a consumer
    that calls [next] on them in the order [schedule] gives; an index
    that names no object is skipped.  The result lists who handed over
    what. *)
Fixpoint run {G : Type} `{Iterator G} (schedule : list nat) (heap : list G)
  (w : World) : list (nat * outcome) * list G * World :=
  match schedule with
  | [] => ([], heap, w)
  | i :: rest =>
      match heap !! i with
      | None => run rest heap w
      | Some g =>
          let '(o, g', w') := next g w in
          let '(os, heap', w'') := run rest (<[i := g']> heap) w' in
          ((i, o) :: os, heap', w'')
      end
  end.

(** What generator [i] handed over during a run. *)
Definition handed_over (i : nat) (trace : list (nat * outcome)) : list outcome :=
  snd <$> filter (fun e => fst e = i) trace.

(** How often [i] is scheduled. *)
Definition turns (i : nat) (schedule : list nat) : nat :=
  length (filter (fun j => j = i) schedule).

(** Two worlds with the same filesystem and the same functions; they
    may differ in the accesses recorded so far. *)
Definition same_env (w1 w2 : World) : Prop :=
  filesystem w1 = filesystem w2 /\ functions w1 = functions w2.

(** A single plain path component: not empty, not a lone dot, and free
    of slashes. *)
Definition plain (s : string) : Prop :=
  s <> EmptyString /\ s <> "." /\ PyStr.contains "/" s = false.

(** ** A directory to run the code on *)

Module Example.

(** [/work/data_dir] holds [a.txt], [b.txt] and [c.log]; the process
    runs in [/work]. *)
Definition fs : Pathlib.FileSystem :=
  Pathlib.mkFS ["work"]
    [ (["work"], Pathlib.Dir);
      (["work"; "data_dir"], Pathlib.Dir);
      (["work"; "data_dir"; "a.txt"], Pathlib.File);
      (["work"; "data_dir"; "b.txt"], Pathlib.File);
      (["work"; "data_dir"; "c.log"], Pathlib.File) ].

(** [lambda f: {'date': Path(f).stem[:8]}], the custom tag function of
    the class docstring. *)
Definition date_tag (f : Pathlib.PathLike) : result Tag :=
  Return {[ "date" := VStr (PyStr.slice_to 8 (Pathlib.stem (Pathlib.Path f))) ]}.

(** A tag function that fails on [b.txt]. *)
Definition picky_tag (f : Pathlib.PathLike) : result Tag :=
  if String.eqb (Pathlib.name (Pathlib.Path f)) "b.txt" then Raised (UserError 7)
  else Return {[ "file_name" := VStr (Pathlib.name (Pathlib.Path f)) ]}.

Definition functions (id : nat) : Pathlib.PathLike -> result Tag :=
  match id with
  | O => date_tag
  | _ => picky_tag
  end.

Definition world : World := mkWorld fs functions [].

Definition a_txt : Pathlib.PurePath := Pathlib.mkPath EmptyString ["data_dir"; "a.txt"].
Definition b_txt : Pathlib.PurePath := Pathlib.mkPath EmptyString ["data_dir"; "b.txt"].
Definition c_log : Pathlib.PurePath := Pathlib.mkPath EmptyString ["data_dir"; "c.log"].

(** [GlobSource('txt_file', 'data_dir', '*.txt')] *)
Definition txt_source : GlobSource.t :=
  GlobSource.mk "txt_file" (Pathlib.PathStr "data_dir") "*.txt" (Some DefaultTagFunction).

(** [GlobSource('file', 'data_dir', '*', picky_tag)] *)
Definition picky_source : GlobSource.t :=
  GlobSource.mk "file" (Pathlib.PathStr "data_dir") "*" (Some (Lambda 1)).

(** [GlobSource('file', 'reports', '*', lambda f: {'date': Path(f).stem[:8]})],
    run where [reports] holds [20230101_report.txt]. *)
Definition reports_fs : Pathlib.FileSystem :=
  Pathlib.mkFS []
    [ (["reports"], Pathlib.Dir);
      (["reports"; "20230101_report.txt"], Pathlib.File) ].

Definition reports_world : World := mkWorld reports_fs functions [].

Definition dated_source : GlobSource.t :=
  GlobSource.mk "file" (Pathlib.PathStr "reports") GlobSource.default_pattern (Some (Lambda 0)).

(** A world whose every function raises [StopIteration], and
    [GlobSource('file', 'data_dir', '*', stopping)] over it. *)
Definition stopping_world : World :=
  mkWorld fs (fun _ _ => Raised StopIteration) [].

Definition stopping_source : GlobSource.t :=
  GlobSource.mk "file" (Pathlib.PathStr "data_dir") "*" (Some (Lambda 0)).


End Example.

(** * Properties *)

(** ** Unfolding a run of [next] *)

Lemma nexts_S_outcomes {G : Type} `{Iterator G} (n : nat) (g : G) (w : World) :
  (nexts (S n) g w).1.1
  = (next g w).1.1 :: (nexts n (next g w).1.2 (next g w).2).1.1.
Proof.
  cbn [nexts]. destruct (next g w) as [[o g'] w']. cbn [fst snd].
  by destruct (nexts n g' w') as [[os g''] w''].
Qed.

Lemma nexts_S_world {G : Type} `{Iterator G} (n : nat) (g : G) (w : World) :
  (nexts (S n) g w).2 = (nexts n (next g w).1.2 (next g w).2).2.
Proof.
  cbn [nexts]. destruct (next g w) as [[o g'] w']. cbn [fst snd].
  by destruct (nexts n g' w') as [[os g''] w''].
Qed.

(** ** The descent of [**] reaches every directory

    [walk_dirs] is given the depth of the filesystem; a larger bound
    finds nothing more. *)

Section Descent.
Import Pathlib.

Lemma walk_from_snoc fs cur comps x :
  walk_from fs cur (comps ++ [x])
  = match walk_from fs cur comps with
    | Some abs =>
        match kind_at fs abs with
        | Some Dir => Some (if String.eqb x ".." then removelast abs else abs ++ [x])
        | _ => None
        end
    | None => None
    end.
Proof.
  revert cur. induction comps as [|c comps IH]; intros cur; simpl.
  - by destruct (kind_at fs cur) as [[|]|].
  - destruct (kind_at fs cur) as [[|]|]; [reflexivity | apply IH | reflexivity].
Qed.

Lemma child_name_inv abs q n : child_name abs q = Some n -> q = abs ++ [n].
Proof.
  unfold child_name. case_bool_decide as Hq; [|done]. intros [= <-]. exact Hq.
Qed.

Lemma entry_within_depth fs q k :
  (q, k) ∈ entries fs -> S (length q) <= fs_depth fs.
Proof.
  intros Hin. unfold fs_depth. apply le_n_S.
  assert (Forall (fun n => n <= list_max (map (fun e => length (fst e)) (entries fs)))
            (map (fun e => length (fst e)) (entries fs))) as Hall.
  { by apply list_max_le. }
  rewrite List.Forall_forall in Hall. apply Hall.
  apply in_map_iff. exists (q, k). split; [done|]. by apply list_elem_of_In.
Qed.

(** A subdirectory lies one level below its parent, at a key of the
    filesystem. *)
Lemma subdirs_below fs p c :
  no_parent_entries fs -> c ∈ subdirs fs p ->
  exists abs n, resolve fs p = Some abs
                /\ resolve fs c = Some (abs ++ [n])
                /\ S (length (abs ++ [n])) <= fs_depth fs.
Proof.
  intros Hwf. unfold subdirs, scandir.
  destruct (resolve fs p) as [abs|] eqn:Habs; [|by intros ?%elem_of_nil].
  destruct (kind_at fs abs) as [[|]|] eqn:Hkind; try by intros ?%elem_of_nil.
  intros (e & He & Hc)%list_elem_of_omap.
  apply list_elem_of_omap in He as ([q k] & Hq & He).
  simpl in He. destruct (child_name abs q) as [n|] eqn:Hn; [|done].
  simpl in He. injection He as <-. simpl in Hc.
  destruct k; [done|]. injection Hc as <-.
  apply child_name_inv in Hn. subst q.
  exists abs, n. split; [done|]. split.
  - unfold resolve in *. simpl. rewrite walk_from_snoc, Habs, Hkind.
    assert (String.eqb n ".." = false) as ->; [|done].
    apply String.eqb_neq. unfold no_parent_entries in Hwf.
    rewrite Forall_forall in Hwf. specialize (Hwf _ Hq). simpl in Hwf.
    by rewrite last_last in Hwf.
  - by eapply entry_within_depth.
Qed.

Lemma flat_map_agree {A B : Type} (f g : A -> list B) (l : list A) :
  (forall x, x ∈ l -> f x = g x) -> flat_map f l = flat_map g l.
Proof.
  induction l as [|x l IH]; intros Hfg; simpl; [done|].
  rewrite Hfg by left. rewrite IH; [done|]. intros y Hy. apply Hfg. by right.
Qed.

Lemma walk_dirs_step fs d p :
  no_parent_entries fs ->
  (forall abs, resolve fs p = Some abs -> fs_depth fs <= d + S (length abs)) ->
  walk_dirs fs (S d) p = walk_dirs fs d p.
Proof.
  intros Hwf. revert p. induction d as [|d IH]; intros p Hdeep.
  - cbn [walk_dirs]. destruct (subdirs fs p) as [|c cs] eqn:Hsub; [done|].
    destruct (subdirs_below fs p c Hwf) as (abs & n & Hp & _ & Hn).
    { rewrite Hsub. by left. }
    specialize (Hdeep abs Hp). rewrite length_app in Hn. simpl in Hn. lia.
  - cbn [walk_dirs]. f_equal. apply flat_map_agree. intros c Hc.
    apply IH. intros abs' Hc'.
    destruct (subdirs_below fs p c Hwf Hc) as (abs & n & Hp & Hcn & _).
    rewrite Hcn in Hc'. injection Hc' as <-.
    specialize (Hdeep abs Hp). rewrite length_app. simpl. lia.
Qed.

(** The bound [fs_depth] is enough: any larger bound lists the same
    directories. *)
Lemma walk_dirs_enough fs p k :
  no_parent_entries fs ->
  walk_dirs fs (fs_depth fs + k) p = walk_dirs fs (fs_depth fs) p.
Proof.
  intros Hwf. induction k as [|k IH]; [by rewrite Nat.add_0_r|].
  rewrite Nat.add_succ_r, walk_dirs_step; [done|done|]. intros abs _. lia.
Qed.

End Descent.

(** ** The environment a generator reads *)

Lemma same_env_refl w : same_env w w.
Proof. by split. Qed.

Lemma same_env_log a w1 w2 : same_env w1 w2 -> same_env (log a w1) w2.
Proof. by intros [??]. Qed.

Lemma path_glob_env root pattern w :
  same_env (path_glob root pattern w).2 w.
Proof.
  unfold path_glob. destruct (Pathlib.glob _ _ _); simpl;
    auto using same_env_refl, same_env_log.
Qed.

Lemma path_glob_result root pattern w1 w2 :
  same_env w1 w2 -> (path_glob root pattern w1).1 = (path_glob root pattern w2).1.
Proof.
  intros [Hfs _]. unfold path_glob. rewrite Hfs.
  by destruct (Pathlib.glob _ _ _).
Qed.

Section Generator.
Import GlobSource.

Lemma call_tag_function_env w1 w2 f file :
  same_env w1 w2 -> call_tag_function w1 f file = call_tag_function w2 f file.
Proof. intros [_ Hfn]. destruct f as [[|k]|]; simpl; by rewrite ?Hfn. Qed.

(** A step of the generator reads the filesystem and the functions
    only, and leaves both as they are. *)
Lemma generator_next_env (g : generator_state) w1 w2 :
  same_env w1 w2 ->
  (next g w1).1.1 = (next g w2).1.1
  /\ (next g w1).1.2 = (next g w2).1.2
  /\ same_env (next g w1).2 (next g w2).2.
Proof.
  intros Henv.
  assert (Hresume : forall self files v1 v2, same_env v1 v2 ->
            (resume self files v1).1.1 = (resume self files v2).1.1
            /\ (resume self files v1).1.2 = (resume self files v2).1.2
            /\ same_env (resume self files v1).2 (resume self files v2).2).
  { intros self [|file rest] v1 v2 Hv; simpl; [done|].
    rewrite (call_tag_function_env v1 v2) by done.
    by destruct (call_tag_function v2 _ _). }
  destruct g as [self|self remaining|]; unfold next, generator_next;
    [| by apply Hresume | done].
  pose proof (path_glob_result (Pathlib.Path (file_path self)) (pattern self) _ _ Henv) as Hr.
  pose proof (path_glob_env (Pathlib.Path (file_path self)) (pattern self) w1) as [Hfs1 Hfn1].
  pose proof (path_glob_env (Pathlib.Path (file_path self)) (pattern self) w2) as [Hfs2 Hfn2].
  destruct (path_glob _ _ w1) as [r1 v1], (path_glob _ _ w2) as [r2 v2].
  simpl in *. subst r2.
  assert (same_env v1 v2) as Hv.
  { destruct Henv. split; congruence. }
  destruct r1; [by apply Hresume | done].
Qed.

Lemma next_looping self files w :
  next (Looping self files) w = resume self files w.
Proof. reflexivity. Qed.

Lemma next_created self w :
  next (Created self) w
  = match path_glob (Pathlib.Path (file_path self)) (pattern self) w with
    | (Return files, w') => resume self files w'
    | (Raised e, w') => (Raise (raised_in_generator e), Closed, w')
    end.
Proof. reflexivity. Qed.

(** The loop body records no access of its own. *)
Lemma resume_world self files w : (resume self files w).2 = w.
Proof.
  destruct files as [|f files]; simpl; [done|].
  by destruct (call_tag_function _ _ _).
Qed.

Lemma nexts_closed n w : nexts n Closed w = (repeat Stop n, Closed, w).
Proof. induction n as [|n IH]; simpl; [done|]. by rewrite IH. Qed.

(** The loop over the matches, when every tag is computed. *)
Lemma looping_nexts self w files tags k :
  Forall2 (fun f tag =>
             call_tag_function w (tag_function self) (Pathlib.PathObj f) = Return tag)
          files tags ->
  (nexts (length files + S k) (Looping self files) w)
  = (map Yield (zip_with (fun f tag => (tag, {[ name self := VPath f ]})) files tags)
       ++ repeat Stop (S k), Closed, w).
Proof.
  induction 1 as [|f tag files tags Hf _ IH]; simpl.
  - by rewrite nexts_closed.
  - rewrite next_looping. unfold resume. rewrite Hf. by rewrite IH.
Qed.

Lemma looping_consume self w files tags fuel :
  Forall2 (fun f tag =>
             call_tag_function w (tag_function self) (Pathlib.PathObj f) = Return tag)
          files tags ->
  length files < fuel ->
  consume fuel (Looping self files) w
  = Some (zip_with (fun f tag => (tag, {[ name self := VPath f ]})) files tags, None, w).
Proof.
  intros H. revert fuel.
  induction H as [|f tag files tags Hf _ IH]; intros [|fuel] Hlt; simpl in *; try lia.
  - done.
  - rewrite next_looping. unfold resume. rewrite Hf. by rewrite IH by lia.
Qed.

(** The loop when the tag function raises on [f], after the matches
    [pre] and before the matches [post]. *)
Lemma looping_nexts_raise self w pre f post tags e k :
  Forall2 (fun g tag =>
             call_tag_function w (tag_function self) (Pathlib.PathObj g) = Return tag)
          pre tags ->
  call_tag_function w (tag_function self) (Pathlib.PathObj f) = Raised e ->
  nexts (length pre + S k) (Looping self (pre ++ f :: post)) w
  = (map Yield (zip_with (fun g tag => (tag, {[ name self := VPath g ]})) pre tags)
       ++ Raise (raised_in_generator e) :: repeat Stop k, Closed, w).
Proof.
  intros Hpre Hf.
  induction Hpre as [|g tag pre tags Hg _ IH]; simpl.
  - rewrite next_looping. unfold resume. rewrite Hf. by rewrite nexts_closed.
  - rewrite next_looping. unfold resume. rewrite Hg. by rewrite IH.
Qed.

Lemma looping_consume_raise self w pre f post tags e fuel :
  Forall2 (fun g tag =>
             call_tag_function w (tag_function self) (Pathlib.PathObj g) = Return tag)
          pre tags ->
  call_tag_function w (tag_function self) (Pathlib.PathObj f) = Raised e ->
  length pre < fuel ->
  consume fuel (Looping self (pre ++ f :: post)) w
  = Some (zip_with (fun g tag => (tag, {[ name self := VPath g ]})) pre tags,
          Some (raised_in_generator e), w).
Proof.
  intros Hpre Hf. revert fuel.
  induction Hpre as [|g tag pre tags Hg _ IH]; intros [|fuel] Hlt; simpl in *; try lia.
  - rewrite next_looping. unfold resume. by rewrite Hf.
  - rewrite next_looping. unfold resume. rewrite Hg. by rewrite IH by lia.
Qed.

(** The first step of a fresh generator whose pattern is taken is the
    first step of the loop over the matches. *)
Lemma next_created_glob self w files :
  Pathlib.glob (filesystem w) (Pathlib.Path (file_path self)) (pattern self)
  = Return files ->
  next (Created self) w
  = next (Looping self files)
      (log (Scan (Pathlib.Path (file_path self)) (pattern self)) w).
Proof.
  intros Hglob. rewrite next_created, next_looping. unfold path_glob. by rewrite Hglob.
Qed.

(** A whole pass over a fresh generator, when the pattern is taken and
    every tag is computed. *)
Lemma created_consume self w files tags fuel :
  Pathlib.glob (filesystem w) (Pathlib.Path (file_path self)) (pattern self)
  = Return files ->
  Forall2 (fun f tag =>
             call_tag_function w (tag_function self) (Pathlib.PathObj f) = Return tag)
          files tags ->
  length files < fuel ->
  consume fuel (Created self) w
  = Some (zip_with (fun f tag => (tag, {[ name self := VPath f ]})) files tags, None,
          log (Scan (Pathlib.Path (file_path self)) (pattern self)) w).
Proof.
  intros Hglob Htags Hfuel.
  pose proof (looping_consume self
                (log (Scan (Pathlib.Path (file_path self)) (pattern self)) w)
                files tags fuel Htags Hfuel) as Hloop.
  destruct fuel as [|fuel]; [lia|].
  simpl in Hloop |- *. rewrite next_created. unfold path_glob. rewrite Hglob.
  by rewrite next_looping in Hloop.
Qed.

End Generator.

(** ** What a stream of a [GlobSource] holds *)

(** C1.  Invoking a [GlobSource] with name [n], root [d], pattern [p]
    and tag function [t] gives a stream with exactly one item per match
    of [p] under [d], in the order of the listing: for the match [f] it
    is the pair of [t(f)] and the packet [{n: f}].  Nothing else is
    handed over, and the iteration ends without an error. *)
Theorem glob_source_emits_one_item_per_match
  (self : GlobSource.t) (t : callable) (w : World)
  (files : list Pathlib.PurePath) (tags : list Tag) (fuel : nat) :
  GlobSource.tag_function self = Some t ->
  Pathlib.glob (filesystem w) (Pathlib.Path (GlobSource.file_path self))
    (GlobSource.pattern self) = Return files ->
  Forall2 (fun f tag =>
             GlobSource.call_tag_function w (Some t) (Pathlib.PathObj f) = Return tag)
          files tags ->
  length files < fuel ->
  consume fuel (SyncStream__iter__ (Operation__call__ self)) w
  = Some (zip_with (fun f tag => (tag, {[ GlobSource.name self := VPath f ]})) files tags,
          None,
          log (Scan (Pathlib.Path (GlobSource.file_path self)) (GlobSource.pattern self)) w).
Proof.
  intros Ht Hglob Htags Hfuel. rewrite <- Ht in Htags.
  by apply created_consume.
Qed.

Lemma glob_source_emits_one_item_per_match_witness :
  consume 3 (SyncStream__iter__ (Operation__call__ Example.txt_source)) Example.world
  = Some ([ ({[ "file_name" := VStr "a" ]}, {[ "txt_file" := VPath Example.a_txt ]});
            ({[ "file_name" := VStr "b" ]}, {[ "txt_file" := VPath Example.b_txt ]}) ],
          None,
          log (Scan (Pathlib.mkPath EmptyString ["data_dir"]) "*.txt") Example.world).
Proof.
  apply (glob_source_emits_one_item_per_match Example.txt_source DefaultTagFunction
           Example.world [Example.a_txt; Example.b_txt]
           [ {[ "file_name" := VStr "a" ]}; {[ "file_name" := VStr "b" ]} ] 3).
  - reflexivity.
  - vm_compute. reflexivity.
  - repeat constructor.
  - simpl. lia.
Defined.

(** ** The default tag function *)

Lemma length_app_string s1 s2 :
  String.length (s1 +:+ s2) = String.length s1 + String.length s2.
Proof. induction s1 as [|a s1 IH]; simpl; [done|]. by rewrite IH. Qed.

Lemma app_string_assoc s1 s2 s3 : (s1 +:+ s2) +:+ s3 = s1 +:+ s2 +:+ s3.
Proof.
  induction s1 as [|a s1 IH]; [done|].
  change (String a ((s1 +:+ s2) +:+ s3) = String a (s1 +:+ s2 +:+ s3)).
  by rewrite IH.
Qed.

Lemma substring_app_prefix s1 s2 :
  String.substring 0 (String.length s1) (s1 +:+ s2) = s1.
Proof.
  induction s1 as [|a s1 IH]; simpl.
  - by destruct s2.
  - by rewrite IH.
Qed.

Lemma rfind_from_absent c s i last :
  PyStr.contains c s = false -> PyStr.rfind_from c s i last = last.
Proof.
  revert i last. induction s as [|a s IH]; intros i last H; simpl in *; [done|].
  apply orb_false_iff in H as [Ha Hs]. rewrite Ha. by apply IH.
Qed.

Lemma rfind_from_app c s1 s2 i last :
  PyStr.rfind_from c (s1 +:+ String c s2) i last
  = PyStr.rfind_from c s2 (i + PyStr.len s1 + 1)%Z (i + PyStr.len s1)%Z.
Proof.
  revert i last. induction s1 as [|a s1 IH]; intros i last; simpl.
  - rewrite Ascii.eqb_refl. unfold PyStr.len. simpl. f_equal; lia.
  - rewrite IH. unfold PyStr.len. simpl String.length. f_equal; lia.
Qed.

(** [stem] drops the last suffix: the text after the last dot of the
    final component, when that dot is neither its first nor its last
    character. *)
Lemma stem_drops_extension (p : Pathlib.PurePath) (base ext : string) :
  Pathlib.name p = base +:+ "." +:+ ext ->
  base <> EmptyString -> ext <> EmptyString ->
  PyStr.contains "." ext = false ->
  Pathlib.stem p = base.
Proof.
  intros Hname Hbase Hext Hdot. unfold Pathlib.stem. rewrite Hname.
  unfold PyStr.rfind.
  change (base +:+ "." +:+ ext) with (base +:+ String "." ext).
  rewrite rfind_from_app, rfind_from_absent by done.
  unfold PyStr.len, PyStr.slice_to. rewrite length_app_string. simpl String.length.
  destruct base as [|b base]; [done|]. destruct ext as [|e ext]; [done|].
  simpl String.length.
  replace (0 <? 0 + Z.of_nat (S (String.length base)))%Z with true
    by (symmetry; apply Z.ltb_lt; lia).
  replace (0 + Z.of_nat (S (String.length base))
           <? Z.of_nat (S (String.length base) + S (S (String.length ext))) - 1)%Z
    with true by (symmetry; apply Z.ltb_lt; lia).
  simpl andb. cbv iota.
  replace (Z.to_nat (0 + Z.of_nat (S (String.length base))))
    with (String.length (String b base)) by (simpl; lia).
  apply substring_app_prefix.
Qed.

(** C3.  A [GlobSource] built without a tag function (the default
    [None]) tags every matched file [f] with the one-key mapping
    [{"file_name": stem(f)}]: its stream pairs that tag with the packet
    of [f]; the tag depends on the path alone, so computing it again,
    in whatever state, gives the same tag; and [stem(f)] is the final
    component of [f] without its extension. *)
Theorem default_tag_is_file_stem
  (n : string) (d : Pathlib.PathLike) (p : string) (w : World)
  (self : GlobSource.t) (files : list Pathlib.PurePath) (fuel : nat) :
  (GlobSource.__init__ n d p None w).1 = Return self ->
  Pathlib.glob (filesystem w) (Pathlib.Path d) p = Return files ->
  length files < fuel ->
  consume fuel (SyncStream__iter__ (Operation__call__ self)) w
  = Some ((fun f => ({[ "file_name" := VStr (Pathlib.stem f) ]}, {[ n := VPath f ]})) <$> files,
          None, log (Scan (Pathlib.Path d) p) w)
  /\ (forall (w1 w2 : World) (f : Pathlib.PurePath),
        GlobSource.call_tag_function w1 (GlobSource.tag_function self) (Pathlib.PathObj f)
        = Return {[ "file_name" := VStr (Pathlib.stem f) ]}
        /\ GlobSource.call_tag_function w2 (GlobSource.tag_function self) (Pathlib.PathObj f)
           = GlobSource.call_tag_function w1 (GlobSource.tag_function self) (Pathlib.PathObj f))
  /\ (forall (f : Pathlib.PurePath) (base ext : string),
        Pathlib.name f = base +:+ "." +:+ ext ->
        base <> EmptyString -> ext <> EmptyString -> PyStr.contains "." ext = false ->
        Pathlib.stem f = base).
Proof.
  intros Hinit Hglob Hfuel. injection Hinit as <-.
  split; [| split; [by intros w1 w2 f | apply stem_drops_extension]].
  set (tags := (fun f => ({[ "file_name" := VStr (Pathlib.stem f) ]} : Tag)) <$> files).
  assert (Hzip : zip_with (fun f tag => (tag, ({[ n := VPath f ]} : Packet))) files tags
                 = (fun f => (({[ "file_name" := VStr (Pathlib.stem f) ]} : Tag),
                              ({[ n := VPath f ]} : Packet)))
                     <$> files).
  { subst tags. clear. induction files as [|f files IH]; [done|].
    cbn [fmap list_fmap zip_with]. f_equal. exact IH. }
  rewrite <- Hzip. apply (created_consume (GlobSource.mk n d p (Some DefaultTagFunction)));
    [done| |done].
  subst tags. clear. induction files as [|f files IH]; simpl; by constructor.
Qed.

Lemma default_tag_is_file_stem_witness :
  consume 3 (SyncStream__iter__ (Operation__call__ Example.txt_source)) Example.world
  = Some ((fun f => ({[ "file_name" := VStr (Pathlib.stem f) ]}, {[ "txt_file" := VPath f ]}))
            <$> [Example.a_txt; Example.b_txt],
          None,
          log (Scan (Pathlib.Path (Pathlib.PathStr "data_dir")) "*.txt") Example.world).
Proof.
  refine (proj1 (default_tag_is_file_stem "txt_file" (Pathlib.PathStr "data_dir") "*.txt"
                   Example.world Example.txt_source [Example.a_txt; Example.b_txt] 3
                   _ _ _)).
  - reflexivity.
  - vm_compute. reflexivity.
  - simpl. lia.
Defined.

(** ** The patterns [Path.glob] takes *)


Lemma splitroot_absolute p :
  PyStr.startswith "/" p = true ->
  (Pathlib.splitroot p).1 = "/" \/ (Pathlib.splitroot p).1 = "//".
Proof.
  destruct p as [|a p]; [done|]. simpl. intros ->%Ascii.eqb_eq.
  destruct p as [|b p]; [by left|].
  destruct (decide (b = "/"%char)) as [->|Hb].
  - destruct p as [|c p]; [by right|].
    destruct (decide (c = "/"%char)) as [->|Hc]; [by left|].
    right. destruct c as [[] [] [] [] [] [] [] []]; done.
  - left. destruct b as [[] [] [] [] [] [] [] []]; done.
Qed.

Lemma parse_path_root p : Pathlib.root (Pathlib.parse_path p) = (Pathlib.splitroot p).1.
Proof. unfold Pathlib.parse_path. by destruct (Pathlib.splitroot p). Qed.



(** One step of [_make_selector]. *)
Lemma make_selector_cons pat child_parts :
  Pathlib.make_selector (pat :: child_parts)
  = if String.eqb pat EmptyString then Return Pathlib.Terminating
    else
      let successor :=
        match child_parts with
        | [] => Return Pathlib.Terminating
        | _ => Pathlib.make_selector child_parts
        end in
      let dironly := match child_parts with [] => false | _ => true end in
      if String.eqb pat Pathlib.double_star then
        match child_parts with
        | next :: _ =>
            if String.eqb next Pathlib.double_star then Pathlib.make_selector child_parts
            else
              bind successor (fun succ =>
                Return (Pathlib.RecursiveWildcard
                          (bool_decide (Pathlib.double_star ∈ child_parts)) succ))
        | [] => Return (Pathlib.RecursiveWildcard false Pathlib.Terminating)
        end
      else if String.eqb pat ".." then
        bind successor (fun succ => Return (Pathlib.Parent succ))
      else if PyStr.contains2 "*" "*" pat then
        Raised (ValueError "Invalid pattern: '**' can only be an entire path component")
      else
        bind successor (fun succ => Return (Pathlib.Wildcard pat dironly succ)).
Proof. by destruct child_parts. Qed.






(** For such a pattern [Path.glob] raises nothing, and gives the matches
    of the compiled pattern when the root is a directory and nothing
    otherwise; for any other pattern it raises, whatever the
    filesystem. *)
Lemma glob_acceptable fs root pattern :
  Pathlib.acceptable pattern = true ->
  exists sel,
    Pathlib.compile_pattern pattern = Return sel
    /\ Pathlib.glob fs root pattern
       = Return (if Pathlib.is_dir fs root then Pathlib._select_from fs sel root else []).
Proof.
  unfold Pathlib.acceptable, Pathlib.glob.
  destruct (Pathlib.compile_pattern pattern) as [sel|e]; [|done].
  intros Hok. exists sel. split; [done|]. by destruct sel.
Qed.

(** The errors of [Path.glob] are its own: none is a [StopIteration]. *)
Lemma make_selector_error parts e :
  Pathlib.make_selector parts = Raised e -> raised_in_generator e = e.
Proof.
  induction parts as [|pat child_parts IH]; [by intros [= <-]|].
  rewrite make_selector_cons. cbv zeta.
  assert (forall B (k : Pathlib.selector -> B),
            bind match child_parts with
                 | [] => Return Pathlib.Terminating
                 | _ => Pathlib.make_selector child_parts
                 end (fun succ => Return (k succ)) = Raised e ->
            raised_in_generator e = e) as Hbind.
  { intros B k. destruct child_parts as [|next rest]; [done|].
    destruct (Pathlib.make_selector (next :: rest)) as [succ|e'] eqn:Hsucc; [done|].
    intros [= ->]. by apply IH. }
  destruct (String.eqb pat EmptyString); [done|].
  destruct (String.eqb pat Pathlib.double_star).
  - destruct child_parts as [|next rest]; [done|].
    destruct (String.eqb next Pathlib.double_star); [exact IH | by apply Hbind].
  - destruct (String.eqb pat ".."); [by apply Hbind|].
    destruct (PyStr.contains2 "*" "*" pat); [by intros [= <-] | by apply Hbind].
Qed.

Lemma glob_error fs root pattern e :
  Pathlib.glob fs root pattern = Raised e -> raised_in_generator e = e.
Proof.
  unfold Pathlib.glob, Pathlib.compile_pattern.
  destruct (String.eqb pattern EmptyString); [by intros [= <-]|].
  destruct (negb _); [by intros [= <-]|].
  destruct (Pathlib.make_selector _) as [sel|e'] eqn:Hsel; cbn [bind].
  - destruct sel; [by intros [= <-] | done..].
  - intros [= ->]. by eapply make_selector_error.
Qed.

Lemma glob_not_acceptable fs root pattern :
  Pathlib.acceptable pattern = false ->
  exists e, Pathlib.glob fs root pattern = Raised e.
Proof.
  unfold Pathlib.acceptable, Pathlib.glob.
  destruct (Pathlib.compile_pattern pattern) as [sel|e]; [|by eexists].
  destruct sel; [by eexists | done..].
Qed.

(** ** Nothing to find *)





(** ** Construction *)

(** C6.  Whatever the arguments, and whether or not [file_path] exists,
    constructing a [GlobSource] raises nothing and leaves the world as
    it is: no filesystem access is recorded.  Building the stream reads
    nothing either; the first [next] on its iterator is what scans the
    filesystem, once the pattern is taken. *)
Theorem construction_touches_no_filesystem
  (n : string) (d : Pathlib.PathLike) (p : string) (t : option callable) (w : World) :
  GlobSource.__init__ n d p t w
  = (Return (GlobSource.mk n d p (Some (default DefaultTagFunction t))), w)
  /\ accesses
       (next (SyncStream__iter__
                (Operation__call__
                   (GlobSource.mk n d p (Some (default DefaultTagFunction t))))) w).2
     = accesses w ++ (if Pathlib.acceptable p then [Scan (Pathlib.Path d) p] else []).
Proof.
  split.
  - by destruct t.
  - change (SyncStream__iter__ (Operation__call__ ?s)) with (GlobSource.Created s).
    rewrite next_created. unfold path_glob. simpl.
    destruct (Pathlib.acceptable p) eqn:Hok.
    + destruct (glob_acceptable (filesystem w) (Pathlib.Path d) p Hok) as (sel & _ & ->).
      by rewrite resume_world.
    + destruct (glob_not_acceptable (filesystem w) (Pathlib.Path d) p Hok) as (e & ->).
      simpl. by rewrite app_nil_r.
Qed.

(** C10.  After construction [tag_function] is never [None]: [None] is
    replaced by the class's default tag function and a supplied
    function is stored as it is, so the call in the loop always reaches
    a function. *)
Theorem tag_function_is_never_none
  (n : string) (d : Pathlib.PathLike) (p : string) (t : option callable) (w : World) :
  exists self : GlobSource.t,
    (GlobSource.__init__ n d p t w).1 = Return self
    /\ GlobSource.tag_function self <> None
    /\ GlobSource.tag_function self
       = match t with
         | None => Some DefaultTagFunction
         | Some f => Some f
         end
    /\ forall (w' : World) (file : Pathlib.PathLike),
         GlobSource.call_tag_function w' (GlobSource.tag_function self) file
         = match t with
           | None | Some DefaultTagFunction =>
               Return (GlobSource.default_tag_function file)
           | Some (Lambda k) => functions w' k file
           end.
Proof.
  eexists. split; [reflexivity|]. by destruct t as [[|k]|].
Qed.

(** ** A failing tag function *)

(** C7, as the code has it.  When the tag function raises on a match
    [f], the stream hands over the items of the matches listed before
    [f], unchanged, then raises at the place of [f]; after it the
    iterator is finished and hands over nothing more.  No match is
    skipped.  What the consumer gets is the error of the tag function,
    but for [StopIteration]: the loop runs in a generator, which turns
    it into a [RuntimeError]. *)
Theorem tag_function_failure_halts_stream
  (self : GlobSource.t) (w : World) (pre post : list Pathlib.PurePath)
  (f : Pathlib.PurePath) (tags : list Tag) (e : exn) (k fuel : nat) :
  Pathlib.glob (filesystem w) (Pathlib.Path (GlobSource.file_path self))
    (GlobSource.pattern self) = Return (pre ++ f :: post) ->
  Forall2 (fun g tag =>
             GlobSource.call_tag_function w (GlobSource.tag_function self)
               (Pathlib.PathObj g) = Return tag)
          pre tags ->
  GlobSource.call_tag_function w (GlobSource.tag_function self) (Pathlib.PathObj f)
  = Raised e ->
  length pre < fuel ->
  (nexts (length pre + S k) (SyncStream__iter__ (Operation__call__ self)) w).1.1
  = map Yield (zip_with (fun g tag => (tag, {[ GlobSource.name self := VPath g ]})) pre tags)
      ++ Raise (raised_in_generator e) :: repeat Stop k
  /\ consume fuel (SyncStream__iter__ (Operation__call__ self)) w
     = Some (zip_with (fun g tag => (tag, {[ GlobSource.name self := VPath g ]})) pre tags,
             Some (raised_in_generator e),
             log (Scan (Pathlib.Path (GlobSource.file_path self)) (GlobSource.pattern self)) w)
  /\ (e <> StopIteration -> raised_in_generator e = e)
  /\ (e = StopIteration ->
      raised_in_generator e = RuntimeError "generator raised StopIteration").
Proof.
  intros Hglob Hpre Hf Hfuel.
  change (SyncStream__iter__ (Operation__call__ self)) with (GlobSource.Created self).
  set (w' := log (Scan (Pathlib.Path (GlobSource.file_path self))
                    (GlobSource.pattern self)) w).
  assert (Hpre' : Forall2 (fun g tag =>
             GlobSource.call_tag_function w' (GlobSource.tag_function self)
               (Pathlib.PathObj g) = Return tag) pre tags) by exact Hpre.
  assert (Hf' : GlobSource.call_tag_function w' (GlobSource.tag_function self)
                  (Pathlib.PathObj f) = Raised e) by exact Hf.
  split; [|split; [|split]].
  - pose proof (looping_nexts_raise self w' pre f post tags e k Hpre' Hf') as Hloop.
    destruct (length pre + S k) as [|m] eqn:Hm; [lia|].
    simpl in Hloop |- *. rewrite (next_created_glob _ _ _ Hglob). fold w'.
    by rewrite Hloop.
  - pose proof (looping_consume_raise self w' pre f post tags e fuel Hpre' Hf' Hfuel)
      as Hloop.
    destruct fuel as [|fuel]; [lia|].
    simpl in Hloop |- *. by rewrite (next_created_glob _ _ _ Hglob).
  - by destruct e.
  - by intros ->.
Qed.

Lemma tag_function_failure_halts_stream_witness :
  (nexts 4 (SyncStream__iter__ (Operation__call__ Example.picky_source)) Example.world).1.1
  = [ Yield ({[ "file_name" := VStr "a.txt" ]}, {[ "file" := VPath Example.a_txt ]});
      Raise (UserError 7); Stop; Stop ]
  /\ consume 2 (SyncStream__iter__ (Operation__call__ Example.picky_source)) Example.world
     = Some ([ ({[ "file_name" := VStr "a.txt" ]}, {[ "file" := VPath Example.a_txt ]}) ],
             Some (UserError 7),
             log (Scan (Pathlib.mkPath EmptyString ["data_dir"]) "*") Example.world)
  /\ (UserError 7 <> StopIteration -> raised_in_generator (UserError 7) = UserError 7)
  /\ (UserError 7 = StopIteration ->
      raised_in_generator (UserError 7) = RuntimeError "generator raised StopIteration").
Proof.
  apply (tag_function_failure_halts_stream Example.picky_source Example.world
           [Example.a_txt] [Example.c_log] Example.b_txt
           [ {[ "file_name" := VStr "a.txt" ]} ] (UserError 7) 2 2).
  - vm_compute. reflexivity.
  - repeat constructor.
  - reflexivity.
  - simpl. lia.
Defined.

(** C7 as the claim states it fails for one error: the tag function of
    [Example.stopping_source] raises [StopIteration] on the first match,
    and the consumer of the stream gets a [RuntimeError] for it, not
    that error. *)
Lemma stop_iteration_reaches_consumer_as_runtime_error :
  Pathlib.glob (filesystem Example.stopping_world)
    (Pathlib.Path (GlobSource.file_path Example.stopping_source))
    (GlobSource.pattern Example.stopping_source)
  = Return [Example.a_txt; Example.b_txt; Example.c_log]
  /\ GlobSource.call_tag_function Example.stopping_world
       (GlobSource.tag_function Example.stopping_source) (Pathlib.PathObj Example.a_txt)
     = Raised StopIteration
  /\ (nexts 2 (SyncStream__iter__ (Operation__call__ Example.stopping_source))
        Example.stopping_world).1.1
     = [ Raise (RuntimeError "generator raised StopIteration"); Stop ]
  /\ consume 1 (SyncStream__iter__ (Operation__call__ Example.stopping_source))
       Example.stopping_world
     = Some ([], Some (RuntimeError "generator raised StopIteration"),
             log (Scan (Pathlib.mkPath EmptyString ["data_dir"]) "*")
               Example.stopping_world).
Proof. repeat split; vm_compute; reflexivity. Qed.

(** ** Iterating a source directly *)

Section SourceIter.
Context {S G : Type} `{Operation S G} `{Iterator G}.

Lemma next_source_created (self : S) (w : World) :
  next (Source.__iter__ (G := G) self) w
  = next (Source.Delegating (S := S) (SyncStream__iter__ (Operation__call__ self))) w.
Proof. reflexivity. Qed.

(** [yield from inner] hands over exactly what [inner] hands over. *)
Lemma consume_delegating (inner : G) (w : World) (fuel : nat) :
  consume fuel (Source.Delegating (S := S) inner) w = consume fuel inner w.
Proof.
  revert inner w. induction fuel as [|fuel IH]; intros inner w; simpl; [done|].
  change (next (Source.Delegating inner) w) with (Source.delegate (S := S) inner w).
  unfold Source.delegate.
  destruct (next inner w) as [[[x| |e] inner'] w']; try done.
  by rewrite IH.
Qed.

(** C4.  For every source class, iterating a source object directly
    gives the same items, ended the same way and in the same final
    world, as invoking the source and iterating the stream it returns,
    from the same state of the world. *)
Theorem source_iter_is_invoke_then_iterate (self : S) (w : World) (fuel : nat) :
  consume fuel (Source.__iter__ (G := G) self) w
  = consume fuel (SyncStream__iter__ (Operation__call__ self)) w.
Proof.
  rewrite <- consume_delegating.
  destruct fuel as [|fuel]; simpl; [done|].
  by rewrite next_source_created.
Qed.

End SourceIter.

(** ** The textual form *)

Lemma split_plain s : PyStr.contains "/" s = false -> PyStr.split "/" s = [s].
Proof.
  induction s as [|a s IH]; simpl; [done|].
  intros [Ha Hs]%orb_false_iff. rewrite Ha, IH by done. done.
Qed.

Lemma split_two d p :
  PyStr.contains "/" d = false -> PyStr.contains "/" p = false ->
  PyStr.split "/" (d +:+ "/" +:+ p) = [d; p].
Proof.
  intros Hd Hp. induction d as [|a d IH]; simpl.
  - by rewrite split_plain.
  - simpl in Hd. apply orb_false_iff in Hd as [Ha Hd]. rewrite Ha, IH by done. done.
Qed.

Lemma endswith_plain s : PyStr.contains "/" s = false -> PyStr.endswith "/" s = false.
Proof.
  induction s as [|a s IH]; simpl; [done|].
  intros [Ha Hs]%orb_false_iff. destruct s; [done|]. by apply IH.
Qed.

Lemma parse_plain d : plain d -> Pathlib.parse_path d = Pathlib.mkPath EmptyString [d].
Proof.
  intros (Hne & Hdot & Hslash). unfold Pathlib.parse_path.
  assert (Pathlib.splitroot d = (EmptyString, d)) as ->.
  { destruct d as [|a d]; [done|]. simpl in Hslash.
    apply orb_false_iff in Hslash as [Ha _].
    unfold Pathlib.splitroot.
    destruct a as [[] [] [] [] [] [] [] []]; try done. }
  rewrite split_plain by done.
  by rewrite filter_cons_True, filter_nil.
Qed.

(** [Path(d) / p] for a plain directory name and a plain pattern reads
    [d/p]. *)
Lemma joined_plain d p :
  plain d -> plain p ->
  Pathlib.str (Pathlib.truediv (Pathlib.Path (Pathlib.PathStr d)) p) = d +:+ "/" +:+ p.
Proof.
  intros Hd Hp. pose proof Hd as (Hdne & Hddot & Hdslash).
  pose proof Hp as (Hpne & Hpdot & Hpslash).
  unfold Pathlib.truediv, Pathlib.Path. rewrite (parse_plain d Hd).
  assert (Pathlib.str (Pathlib.mkPath EmptyString [d]) = d) as ->.
  { unfold Pathlib.str. simpl. destruct d; [done|]. simpl. done. }
  unfold Pathlib.posix_join.
  assert (PyStr.startswith "/" p = false) as ->.
  { destruct p as [|a p]; [done|]. simpl in *. by apply orb_false_iff in Hpslash as [-> _]. }
  assert (String.eqb d EmptyString = false) as -> by (by destruct d).
  rewrite endswith_plain by done. simpl orb. cbv iota.
  unfold Pathlib.parse_path.
  assert (Pathlib.splitroot (d +:+ "/" +:+ p) = (EmptyString, d +:+ "/" +:+ p)) as ->.
  { destruct d as [|a d]; [done|]. simpl in Hdslash.
    apply orb_false_iff in Hdslash as [Ha _].
    simpl. unfold Pathlib.splitroot.
    destruct a as [[] [] [] [] [] [] [] []]; try done. }
  rewrite split_two by done.
  rewrite !filter_cons_True, filter_nil by done.
  unfold Pathlib.str. simpl.
  destruct d; [done|]. done.
Qed.

(** C9, as the code has it.  The string form of a [GlobSource] is the
    class name with, in brackets, [file_path] joined with [pattern] as
    one path, then the arrow and the name: [GlobSource(<path>) ⇒ <name>].
    For a plain directory name [d] and a plain pattern [p] the path
    reads [d/p]. *)
Theorem repr_is_class_path_arrow_name (self : GlobSource.t) :
  GlobSource.__repr__ self
  = "GlobSource("
    +:+ Pathlib.str (Pathlib.truediv (Pathlib.Path (GlobSource.file_path self))
                       (GlobSource.pattern self))
    +:+ ") ⇒ " +:+ GlobSource.name self
  /\ forall d : string,
       GlobSource.file_path self = Pathlib.PathStr d ->
       plain d -> plain (GlobSource.pattern self) ->
       GlobSource.__repr__ self
       = "GlobSource(" +:+ d +:+ "/" +:+ GlobSource.pattern self
         +:+ ") ⇒ " +:+ GlobSource.name self.
Proof.
  split; [reflexivity|].
  intros d Hd Hplain_d Hplain_p. unfold GlobSource.__repr__.
  rewrite Hd, joined_plain by done.
  by rewrite !app_string_assoc.
Qed.

Lemma repr_is_class_path_arrow_name_witness :
  GlobSource.__repr__ Example.txt_source = "GlobSource(data_dir/*.txt) ⇒ txt_file".
Proof.
  apply (proj2 (repr_is_class_path_arrow_name Example.txt_source) "data_dir").
  - reflexivity.
  - repeat split; discriminate.
  - repeat split; discriminate.
Defined.

(** C9 as the claim states it fails: the string form of
    [GlobSource('txt_file', 'data_dir', '*.txt')] is not the joined
    path, the arrow and the name alone; it carries the class name and
    brackets. *)
Lemma repr_is_not_path_arrow_name :
  GlobSource.__repr__ Example.txt_source = "GlobSource(data_dir/*.txt) ⇒ txt_file"
  /\ String.eqb (GlobSource.__repr__ Example.txt_source)
       (Pathlib.str (Pathlib.truediv (Pathlib.Path (GlobSource.file_path Example.txt_source))
                       (GlobSource.pattern Example.txt_source))
        +:+ " ⇒ " +:+ GlobSource.name Example.txt_source)
     = false.
Proof. split; vm_compute; reflexivity. Qed.

(** ** Two invocations side by side *)

Section Interleaving.
Import GlobSource.

Lemma same_env_sym w1 w2 : same_env w1 w2 -> same_env w2 w1.
Proof. by intros [??]. Qed.

Lemma same_env_trans w1 w2 w3 : same_env w1 w2 -> same_env w2 w3 -> same_env w1 w3.
Proof. intros [??] [??]. split; congruence. Qed.

Lemma generator_next_keeps_env (g : generator_state) w : same_env (next g w).2 w.
Proof.
  destruct g as [self|self remaining|]; unfold next, generator_next.
  - pose proof (path_glob_env (Pathlib.Path (file_path self)) (pattern self) w) as Henv.
    destruct (path_glob _ _ w) as [[files|e] w']; simpl in *; [|done].
    by rewrite resume_world.
  - rewrite resume_world. apply same_env_refl.
  - apply same_env_refl.
Qed.

(** What an iterator hands over depends on the filesystem and the
    functions, not on the accesses recorded before. *)
Lemma nexts_env (n : nat) (g : generator_state) w1 w2 :
  same_env w1 w2 -> (nexts n g w1).1.1 = (nexts n g w2).1.1.
Proof.
  revert g w1 w2. induction n as [|n IH]; intros g w1 w2 Henv; simpl; [done|].
  destruct (generator_next_env g w1 w2 Henv) as (Ho & Hg & Hw).
  destruct (next g w1) as [[o1 g1] v1], (next g w2) as [[o2 g2] v2].
  simpl in *. subst o2 g2.
  specialize (IH g1 v1 v2 Hw).
  destruct (nexts n g1 v1) as [[os1 h1] u1], (nexts n g1 v2) as [[os2 h2] u2].
  simpl in *. by subst.
Qed.

(** In any interleaving, generator [i] hands over what it would hand
    over if it ran alone: steps of the other generators do not reach
    it. *)
Lemma run_projection (schedule : list nat) (heap : list generator_state)
  (w w1 : World) (i : nat) (g : generator_state) :
  heap !! i = Some g -> same_env w w1 ->
  handed_over i (run schedule heap w).1.1 = (nexts (turns i schedule) g w1).1.1.
Proof.
  revert heap w w1 g.
  induction schedule as [|j rest IH]; intros heap w w1 g Hi Henv; [done|].
  cbn [run]. destruct (decide (j = i)) as [->|Hne].
  - rewrite Hi.
    unfold turns. rewrite filter_cons_True by done. cbn [length nexts]. fold (turns i rest).
    destruct (generator_next_env g w w1 Henv) as (Ho & Hg & Hw).
    destruct (next g w) as [[o g'] w'], (next g w1) as [[o1 g1] w1'].
    simpl in Ho, Hg, Hw. subst o1 g1.
    assert (<[i := g']> heap !! i = Some g') as Hi'.
    { apply list_lookup_insert_eq. by eapply lookup_lt_Some. }
    specialize (IH (<[i := g']> heap) w' w1' g' Hi' Hw).
    destruct (run rest (<[i := g']> heap) w') as [[os heap'] w''].
    destruct (nexts (turns i rest) g' w1') as [[os1 g''] w1''].
    simpl in IH |- *. unfold handed_over. rewrite filter_cons_True by done.
    cbn [fmap list_fmap snd]. f_equal. exact IH.
  - unfold turns. rewrite filter_cons_False by done. fold (turns i rest).
    destruct (heap !! j) as [gj|] eqn:Hj; [| by apply IH].
    pose proof (generator_next_keeps_env gj w) as Hkeep.
    destruct (next gj w) as [[o gj'] w'].
    assert (<[j := gj']> heap !! i = Some g) as Hi'.
    { by rewrite list_lookup_insert_ne. }
    specialize (IH (<[j := gj']> heap) w' w1 g Hi'
                  (same_env_trans _ _ _ Hkeep Henv)).
    destruct (run rest (<[j := gj']> heap) w') as [[os heap'] w''].
    simpl in IH |- *. unfold handed_over. by rewrite filter_cons_False.
Qed.

(** Once started, a generator records no further access. *)
Lemma next_started (g : generator_state) w :
  (forall self, g <> Created self) ->
  (next g w).2 = w /\ forall self, (next g w).1.2 <> Created self.
Proof.
  intros Hstarted.
  destruct g as [self|self [|f files]|]; [by destruct (Hstarted self) | done | | done].
  rewrite next_looping. unfold resume.
  by destruct (call_tag_function w (tag_function self) (Pathlib.PathObj f)).
Qed.

Lemma nexts_started_world (n : nat) (g : generator_state) w :
  (forall self, g <> Created self) -> (nexts n g w).2 = w.
Proof.
  revert g w. induction n as [|n IH]; intros g w Hstarted; [done|].
  rewrite nexts_S_world.
  destruct (next_started g w Hstarted) as [-> Hnext]. by apply IH.
Qed.

(** A fresh generator scans the filesystem when it is first advanced,
    and at no other time. *)
Lemma nexts_created_accesses (n : nat) (self : t) w :
  accesses (nexts (S n) (Created self) w).2
  = accesses w
      ++ (if Pathlib.acceptable (pattern self)
          then [Scan (Pathlib.Path (file_path self)) (pattern self)] else []).
Proof.
  rewrite nexts_S_world, next_created. unfold path_glob.
  destruct (Pathlib.acceptable (pattern self)) eqn:Hok.
  - destruct (glob_acceptable (filesystem w) (Pathlib.Path (file_path self))
                (pattern self) Hok) as (sel & _ & ->).
    set (files := if Pathlib.is_dir _ _ then _ else _).
    set (w' := log _ w).
    rewrite resume_world, nexts_started_world; [done|].
    intros self'. destruct files as [|f files]; simpl; [done|].
    by destruct (call_tag_function _ _ _).
  - destruct (glob_not_acceptable (filesystem w) (Pathlib.Path (file_path self))
                (pattern self) Hok) as (e & ->).
    cbn [fst snd]. rewrite nexts_started_world by done. by rewrite app_nil_r.
Qed.

End Interleaving.

(** C8.  Two invocations of one [GlobSource] give two streams that do
    not reach each other.  However the calls of [next] on their two
    iterators are interleaved, each iterator hands over exactly what it
    hands over when run alone from the start; with the same filesystem
    and functions the two hand over the same sequence, hence the same
    multiset of items; and each performs its own scan of the filesystem
    when it is first advanced, whatever was scanned before. *)
Theorem invocations_are_independent
  (self : GlobSource.t) (w : World) (schedule : list nat) :
  let first := SyncStream__iter__ (Operation__call__ self) in
  let second := SyncStream__iter__ (Operation__call__ self) in
  let trace := (run schedule [first; second] w).1.1 in
  handed_over 0 trace = (nexts (turns 0 schedule) first w).1.1
  /\ handed_over 1 trace = (nexts (turns 1 schedule) second w).1.1
  /\ (forall (n : nat) (v1 v2 : World),
        same_env v1 v2 -> (nexts n first v1).1.1 = (nexts n second v2).1.1)
  /\ (forall (n : nat) (v : World),
        accesses (nexts (S n) second v).2
        = accesses v
            ++ (if Pathlib.acceptable (GlobSource.pattern self)
                then [Scan (Pathlib.Path (GlobSource.file_path self))
                        (GlobSource.pattern self)]
                else [])).
Proof.
  cbv zeta.
  change (SyncStream__iter__ (Operation__call__ self)) with (GlobSource.Created self).
  repeat split.
  - by apply run_projection; [| apply same_env_refl].
  - by apply run_projection; [| apply same_env_refl].
  - intros n v1 v2 Henv. by apply nexts_env.
  - intros n v. apply nexts_created_accesses.
Qed.

(** ** Equality and hash *)

(** C2.  Two instances built from the same (name, file_path, pattern,
    tag_function) compare equal and have the same hash; two instances
    that differ in one of these attributes compare unequal. *)
Theorem same_configuration_same_hash
  (hash : string * string * Pathlib.PathLike * string * option callable -> Z)
  (n n' : string) (d d' : Pathlib.PathLike) (p p' : string)
  (t t' : option callable) (w w' : World) (a b : GlobSource.t) :
  (GlobSource.__init__ n d p t w).1 = Return a ->
  (GlobSource.__init__ n' d' p' t' w').1 = Return b ->
  ((n, d, p, t) = (n', d', p', t') ->
   GlobSource.__eq__ a b = true
   /\ GlobSource.__hash__ hash a = GlobSource.__hash__ hash b)
  /\ (GlobSource.name a <> GlobSource.name b
      \/ GlobSource.file_path a <> GlobSource.file_path b
      \/ GlobSource.pattern a <> GlobSource.pattern b
      \/ GlobSource.tag_function a <> GlobSource.tag_function b ->
      GlobSource.__eq__ a b = false).
Proof.
  intros Ha Hb. injection Ha as <-. injection Hb as <-. split.
  - intros [= <- <- <- <-]. split; [| reflexivity].
    unfold GlobSource.__eq__. by apply bool_decide_eq_true.
  - intros Hdiff. unfold GlobSource.__eq__, GlobSource.identity.
    apply bool_decide_eq_false. intros [= Hn Hd Hp Ht].
    simpl in Hdiff. destruct Hdiff as [Hx|[Hx|[Hx|Hx]]]; by apply Hx.
Qed.

Lemma same_configuration_same_hash_witness :
  ((("txt_file", Pathlib.PathStr "data_dir", "*.txt", @None callable)
    = ("txt_file", Pathlib.PathStr "data_dir", "*.txt", None) ->
    GlobSource.__eq__ Example.txt_source Example.txt_source = true
    /\ GlobSource.__hash__ (fun k => Z.of_nat (String.length k.1.2)) Example.txt_source
       = GlobSource.__hash__ (fun k => Z.of_nat (String.length k.1.2)) Example.txt_source)
   /\ (GlobSource.name Example.txt_source <> GlobSource.name Example.txt_source
       \/ GlobSource.file_path Example.txt_source <> GlobSource.file_path Example.txt_source
       \/ GlobSource.pattern Example.txt_source <> GlobSource.pattern Example.txt_source
       \/ GlobSource.tag_function Example.txt_source
          <> GlobSource.tag_function Example.txt_source ->
       GlobSource.__eq__ Example.txt_source Example.txt_source = false))
  /\ GlobSource.__eq__ Example.txt_source Example.picky_source = false.
Proof.
  split.
  - apply (same_configuration_same_hash (fun k => Z.of_nat (String.length k.1.2))
             "txt_file" "txt_file" (Pathlib.PathStr "data_dir") (Pathlib.PathStr "data_dir")
             "*.txt" "*.txt" None None Example.world Example.world
             Example.txt_source Example.txt_source); reflexivity.
  - apply (same_configuration_same_hash (fun k => Z.of_nat (String.length k.1.2))
             "txt_file" "file" (Pathlib.PathStr "data_dir") (Pathlib.PathStr "data_dir")
             "*.txt" "*" None (Some (Lambda 1)) Example.world Example.world
             Example.txt_source Example.picky_source); [reflexivity | reflexivity |].
    left. discriminate.
Defined.

(** ** Matching, entry by entry *)

Lemma compile_plain_pattern p :
  plain p -> p <> ".." -> PyStr.contains2 "*" "*" p = false ->
  Pathlib.compile_pattern p
  = Return (Pathlib.Wildcard p false Pathlib.Terminating).
Proof.
  intros Hplain Hparent Hstars. pose proof Hplain as (Hne & Hdot & Hslash).
  unfold Pathlib.compile_pattern.
  assert (String.eqb p EmptyString = false) as -> by (by apply String.eqb_neq).
  rewrite parse_plain by done. cbn [Pathlib.root Pathlib.tail negb String.eqb].
  rewrite endswith_plain by done. cbn [app Pathlib.make_selector].
  assert (String.eqb p EmptyString = false) as -> by (by apply String.eqb_neq).
  assert (String.eqb p Pathlib.double_star = false) as ->.
  { apply String.eqb_neq. intros ->. discriminate Hstars. }
  assert (String.eqb p ".." = false) as -> by (by apply String.eqb_neq).
  by rewrite Hstars.
Qed.

(** X1.  For a pattern of one plain component, the stream of a
    [GlobSource] with the default tag function holds one item for each
    entry of the directory whose name matches the pattern, in listing
    order, and no item for any other entry. *)
Theorem one_item_per_matching_entry
  (self : GlobSource.t) (w : World) (es : list (string * Pathlib.kind)) (fuel : nat) :
  plain (GlobSource.pattern self) ->
  GlobSource.pattern self <> ".." ->
  PyStr.contains2 "*" "*" (GlobSource.pattern self) = false ->
  GlobSource.tag_function self = Some DefaultTagFunction ->
  Pathlib.scandir (filesystem w) (Pathlib.Path (GlobSource.file_path self)) = Some es ->
  length es < fuel ->
  consume fuel (SyncStream__iter__ (Operation__call__ self)) w
  = Some ((fun e =>
             let f := Pathlib.make_child_relpath
                        (Pathlib.Path (GlobSource.file_path self)) e.1 in
             (({[ "file_name" := VStr (Pathlib.stem f) ]} : Tag),
              ({[ GlobSource.name self := VPath f ]} : Packet)))
            <$> filter (fun e => Fnmatch.fnmatch e.1 (GlobSource.pattern self) = true) es,
          None,
          log (Scan (Pathlib.Path (GlobSource.file_path self)) (GlobSource.pattern self)) w).
Proof.
  intros Hplain Hparent Hstars Htag Hscan Hfuel.
  set (root := Pathlib.Path (GlobSource.file_path self)) in *.
  set (keep := filter (fun e => Fnmatch.fnmatch e.1 (GlobSource.pattern self) = true) es).
  set (files := (fun e : string * Pathlib.kind => Pathlib.make_child_relpath root e.1)
                  <$> keep).
  assert (Pathlib.glob (filesystem w) root (GlobSource.pattern self) = Return files)
    as Hglob.
  { unfold Pathlib.glob. rewrite compile_plain_pattern by done.
    cbn [bind Pathlib.select_from]. f_equal.
    unfold Pathlib.is_dir, Pathlib.stat.
    unfold Pathlib.scandir in Hscan.
    destruct (Pathlib.resolve (filesystem w) root) as [abs|] eqn:Habs; [|done].
    destruct (Pathlib.kind_at (filesystem w) abs) as [[|]|] eqn:Hkind; try done.
    cbn [Pathlib._select_from]. unfold Pathlib.scandir. rewrite Habs, Hkind.
    injection Hscan as Hes. rewrite Hes. subst files keep. clear.
    induction es as [|e es IH]; [done|].
    cbn [flat_map]. rewrite IH. clear IH. cbn [andb].
    destruct (Fnmatch.fnmatch e.1 (GlobSource.pattern self)) eqn:Hmatch.
    - by rewrite filter_cons_True.
    - rewrite filter_cons_False; [done|]. by rewrite Hmatch. }
  assert (length files <= length es) as Hlen.
  { subst files keep. rewrite length_fmap. apply length_filter. }
  set (tags := (fun f => ({[ "file_name" := VStr (Pathlib.stem f) ]} : Tag)) <$> files).
  assert (zip_with (fun f tag => (tag, ({[ GlobSource.name self := VPath f ]} : Packet)))
            files tags
          = (fun e =>
               let f := Pathlib.make_child_relpath root e.1 in
               (({[ "file_name" := VStr (Pathlib.stem f) ]} : Tag),
                ({[ GlobSource.name self := VPath f ]} : Packet))) <$> keep) as <-.
  { subst tags files. clear. induction keep as [|e keep IH]; [done|].
    cbn [fmap list_fmap zip_with]. f_equal. exact IH. }
  apply created_consume; [done| |lia].
  rewrite Htag. subst tags. clear.
  induction files as [|f files IH]; simpl; by constructor.
Qed.

Lemma one_item_per_matching_entry_witness :
  consume 4 (SyncStream__iter__ (Operation__call__ Example.txt_source)) Example.world
  = Some ([ ({[ "file_name" := VStr "a" ]}, {[ "txt_file" := VPath Example.a_txt ]});
            ({[ "file_name" := VStr "b" ]}, {[ "txt_file" := VPath Example.b_txt ]}) ],
          None,
          log (Scan (Pathlib.mkPath EmptyString ["data_dir"]) "*.txt") Example.world).
Proof.
  apply (one_item_per_matching_entry Example.txt_source Example.world
           [ ("a.txt", Pathlib.File); ("b.txt", Pathlib.File); ("c.log", Pathlib.File) ] 4).
  - repeat split; discriminate.
  - discriminate.
  - reflexivity.
  - reflexivity.
  - vm_compute. reflexivity.
  - simpl. lia.
Defined.

(** ** The examples of the class docstring *)

(** The call [GlobSource('txt_file', 'data_dir', '*.txt')] builds
    [Example.txt_source]. *)
Example txt_source_constructed :
  GlobSource.__init__ "txt_file" (Pathlib.PathStr "data_dir") "*.txt" None Example.world
  = (Return Example.txt_source, Example.world).
Proof. reflexivity. Qed.

(** A pattern that matches nothing gives an empty stream. *)
Example csv_pattern_matches_nothing :
  consume 1
    (SyncStream__iter__
       (Operation__call__
          (GlobSource.mk "csv_file" (Pathlib.PathStr "data_dir") "*.csv"
             (Some DefaultTagFunction))))
    Example.world
  = Some ([], None,
          log (Scan (Pathlib.mkPath EmptyString ["data_dir"]) "*.csv") Example.world).
Proof. vm_compute. reflexivity. Qed.

(** The custom tag function keeps the first eight characters of the
    stem. *)
Example custom_tag_function_dates_the_file :
  consume 2 (SyncStream__iter__ (Operation__call__ Example.dated_source))
    Example.reports_world
  = Some ([ ({[ "date" := VStr "20230101" ]},
             {[ "file" := VPath (Pathlib.mkPath EmptyString
                                   ["reports"; "20230101_report.txt"]) ]}) ],
          None,
          log (Scan (Pathlib.mkPath EmptyString ["reports"]) "*") Example.reports_world).
Proof. vm_compute. reflexivity. Qed.

(** Iterating the source object itself gives the same two items. *)
Example txt_source_iterated_directly :
  consume 3 (Source.__iter__ (G := GlobSource.generator_state) Example.txt_source)
    Example.world
  = Some ([ ({[ "file_name" := VStr "a" ]}, {[ "txt_file" := VPath Example.a_txt ]});
            ({[ "file_name" := VStr "b" ]}, {[ "txt_file" := VPath Example.b_txt ]}) ],
          None,
          log (Scan (Pathlib.mkPath EmptyString ["data_dir"]) "*.txt") Example.world).
Proof. vm_compute. reflexivity. Qed.

(** ** Patterns at the edges *)

(** An empty range is removed before the negation is read: [[z-a!c]]
    is the set of every character but [c], and the source hands over
    [a.txt] and [b.txt] for it. *)
Example empty_range_goes_before_the_negation :
  Fnmatch.translate 0 "[z-a!c]*"
  = [Fnmatch.TSet true [Fnmatch.Lit "c"]; Fnmatch.TStar]
  /\ consume 3
       (SyncStream__iter__
          (Operation__call__
             (GlobSource.mk "f" (Pathlib.PathStr "data_dir") "[z-a!c]*"
                (Some DefaultTagFunction))))
       Example.world
     = Some ([ ({[ "file_name" := VStr "a" ]}, {[ "f" := VPath Example.a_txt ]});
               ({[ "file_name" := VStr "b" ]}, {[ "f" := VPath Example.b_txt ]}) ],
             None,
             log (Scan (Pathlib.mkPath EmptyString ["data_dir"]) "[z-a!c]*") Example.world).
Proof. split; vm_compute; reflexivity. Qed.

(** The pattern [./] compiles to the terminating selector alone, for
    which [Path.glob] raises [AttributeError]; the lone dot leaves no
    component at all, an [IndexError].  Neither scans the
    filesystem. *)
Example dot_patterns_raise :
  consume 1
    (SyncStream__iter__
       (Operation__call__
          (GlobSource.mk "f" (Pathlib.PathStr "data_dir") "./" (Some DefaultTagFunction))))
    Example.world
  = Some ([],
          Some (AttributeError
                  "'_TerminatingSelector' object has no attribute 'select_from'"),
          Example.world)
  /\ consume 1
       (SyncStream__iter__
          (Operation__call__
             (GlobSource.mk "f" (Pathlib.PathStr "data_dir") "." (Some DefaultTagFunction))))
       Example.world
     = Some ([], Some (IndexError "tuple index out of range"), Example.world)
  /\ Pathlib.acceptable "./" = false
  /\ Pathlib.acceptable "." = false.
Proof. repeat split; vm_compute; reflexivity. Qed.

(** * Further properties of [source.py] *)

(** ** A pattern that [Path.glob] refuses *)

(** X2.  When [Path.glob] refuses the pattern, the first [next] on the
    stream's iterator raises the error of [Path.glob]: no item is
    handed over, the filesystem is not scanned, and the iterator is
    finished from then on. *)
Theorem refused_pattern_raises_at_first_next
  (self : GlobSource.t) (w : World) (e : exn) (k fuel : nat) :
  Pathlib.compile_pattern (GlobSource.pattern self) = Raised e ->
  0 < fuel ->
  consume fuel (SyncStream__iter__ (Operation__call__ self)) w
  = Some ([], Some e, w)
  /\ nexts (S k) (SyncStream__iter__ (Operation__call__ self)) w
     = (Raise e :: repeat Stop k, GlobSource.Closed, w).
Proof.
  intros Hrefused Hfuel.
  change (SyncStream__iter__ (Operation__call__ self)) with (GlobSource.Created self).
  assert (next (GlobSource.Created self) w = (Raise e, GlobSource.Closed, w)) as Hnext.
  { assert (Pathlib.glob (filesystem w) (Pathlib.Path (GlobSource.file_path self))
              (GlobSource.pattern self) = Raised e) as Hglob.
    { unfold Pathlib.glob. by rewrite Hrefused. }
    rewrite next_created. unfold path_glob. rewrite Hglob.
    by rewrite (glob_error _ _ _ _ Hglob). }
  split.
  - destruct fuel as [|fuel]; [lia|]. cbn [consume]. by rewrite Hnext.
  - cbn [nexts]. rewrite Hnext. by rewrite nexts_closed.
Qed.

Lemma refused_pattern_raises_at_first_next_witness :
  consume 1
    (SyncStream__iter__
       (Operation__call__
          (GlobSource.mk "f" (Pathlib.PathStr "data_dir") "a**" (Some DefaultTagFunction))))
    Example.world
  = Some ([],
          Some (ValueError "Invalid pattern: '**' can only be an entire path component"),
          Example.world).
Proof.
  refine (proj1 (refused_pattern_raises_at_first_next
                   (GlobSource.mk "f" (Pathlib.PathStr "data_dir") "a**"
                      (Some DefaultTagFunction))
                   Example.world _ 0 1 _ _)).
  - reflexivity.
  - lia.
Defined.

(** ** Every pass ends *)

Section Prefix.
Import GlobSource.

(** The loop hands over the items of a first part of the listing and
    stops there: at the end of the listing, or at the first match the
    tag function fails on. *)
Lemma looping_consume_prefix self w files fuel :
  length files < fuel ->
  exists (k : nat) (tags : list Tag) (e : option exn),
    consume fuel (Looping self files) w
    = Some (zip_with (fun f tag => (tag, {[ name self := VPath f ]})) (take k files) tags,
            e, w)
    /\ length tags = k /\ k <= length files
    /\ Forall2 (fun f tag =>
                  call_tag_function w (tag_function self) (Pathlib.PathObj f) = Return tag)
               (take k files) tags
    /\ match e with
       | None => k = length files
       | Some err =>
           exists f err0,
             files !! k = Some f
             /\ call_tag_function w (tag_function self) (Pathlib.PathObj f) = Raised err0
             /\ err = raised_in_generator err0
       end.
Proof.
  revert fuel. induction files as [|f files IH]; intros [|fuel] Hfuel; simpl in Hfuel; try lia.
  - exists 0, [], None. repeat split; by constructor.
  - cbn [consume]. rewrite next_looping. unfold resume.
    destruct (call_tag_function w (tag_function self) (Pathlib.PathObj f)) as [tag|err] eqn:Hf.
    + destruct (IH fuel ltac:(lia)) as (k & tags & e & -> & Hlen & Hk & Htags & He).
      exists (S k), (tag :: tags), e. cbn [take zip_with length].
      repeat split; [by rewrite Hlen | lia | by constructor |].
      destruct e as [err|]; [exact He | by rewrite He].
    + exists 0, [], (Some (raised_in_generator err)).
      repeat split; [simpl; lia | constructor |].
      by exists f, err.
Qed.

End Prefix.

(** X3.  Every pass over the stream of a [GlobSource] ends, whatever
    the pattern and the tag function: within one call of [next] more
    than there are matches, the iteration has handed over the items of
    a first part of the listing, each one the tag of its match paired
    with the packet [{name: match}], and has ended.  It ends without an
    error exactly when every match was handed over.  With an error,
    either [Path.glob] raised it and nothing was handed over, or the
    match after the last item is the one the tag function failed on and
    the error is the one it raised, a [StopIteration] turned into a
    [RuntimeError]. *)
Theorem every_pass_ends_within_the_listing (self : GlobSource.t) (w : World) :
  let listing :=
    match Pathlib.glob (filesystem w) (Pathlib.Path (GlobSource.file_path self))
            (GlobSource.pattern self) with
    | Return files => files
    | Raised _ => []
    end in
  exists (k : nat) (tags : list Tag) (e : option exn) (w' : World),
    consume (S (length listing)) (SyncStream__iter__ (Operation__call__ self)) w
    = Some (zip_with (fun f tag => (tag, {[ GlobSource.name self := VPath f ]}))
              (take k listing) tags,
            e, w')
    /\ length tags = k /\ k <= length listing
    /\ Forall2 (fun f tag =>
                  GlobSource.call_tag_function w (GlobSource.tag_function self)
                    (Pathlib.PathObj f) = Return tag)
               (take k listing) tags
    /\ match e with
       | None => k = length listing
       | Some err =>
           (Pathlib.glob (filesystem w) (Pathlib.Path (GlobSource.file_path self))
              (GlobSource.pattern self) = Raised err
            /\ k = 0)
           \/ exists f err0,
                listing !! k = Some f
                /\ GlobSource.call_tag_function w (GlobSource.tag_function self)
                     (Pathlib.PathObj f) = Raised err0
                /\ err = raised_in_generator err0
       end.
Proof.
  cbv zeta.
  change (SyncStream__iter__ (Operation__call__ self)) with (GlobSource.Created self).
  destruct (Pathlib.glob (filesystem w) (Pathlib.Path (GlobSource.file_path self))
              (GlobSource.pattern self)) as [files|err] eqn:Hglob.
  - set (w' := log (Scan (Pathlib.Path (GlobSource.file_path self))
                      (GlobSource.pattern self)) w).
    destruct (looping_consume_prefix self w' files (S (length files)) ltac:(lia))
      as (k & tags & e & Hloop & Hlen & Hk & Htags & He).
    exists k, tags, e, w'. split; [| repeat split; try done].
    + cbn [consume] in Hloop |- *. rewrite (next_created_glob _ _ _ Hglob). exact Hloop.
    + destruct e as [err|]; [right; exact He | exact He].
  - exists 0, [], (Some err), w. split; [| repeat split; try done].
    + cbn [consume length]. rewrite next_created. unfold path_glob. rewrite Hglob.
      by rewrite (glob_error _ _ _ _ Hglob).
    + by left.
Qed.

(** ** Iterating a source again *)

Section Again.
Import GlobSource.

(** Iterating a [GlobSource] object is iterating the generator of
    [forward]. *)
Lemma consume_source_iter (self : t) (w : World) (fuel : nat) :
  consume fuel (Source.__iter__ (G := generator_state) self) w
  = consume fuel (Created self) w.
Proof.
  rewrite <- (consume_delegating (S := t) (G := generator_state) (Created self) w fuel).
  destruct fuel as [|fuel]; [done|]. cbn [consume].
  by rewrite next_source_created.
Qed.

(** A pass depends on the filesystem and the functions only. *)
Lemma consume_env (fuel : nat) (g : generator_state) (w1 w2 : World) xs e v1 :
  same_env w1 w2 ->
  consume fuel g w1 = Some (xs, e, v1) ->
  exists v2, consume fuel g w2 = Some (xs, e, v2) /\ same_env v1 v2.
Proof.
  revert g w1 w2 xs e v1.
  induction fuel as [|fuel IH]; intros g w1 w2 xs e v1 Henv; [done|].
  cbn [consume].
  destruct (generator_next_env g w1 w2 Henv) as (Ho & Hg & Hw).
  destruct (next g w1) as [[o1 g1] u1], (next g w2) as [[o2 g2] u2].
  simpl in Ho, Hg, Hw. subst o2 g2.
  destruct o1 as [x| |err].
  - destruct (consume fuel g1 u1) as [[[ys e1] t1]|] eqn:Hrest; [|done].
    intros [= <- <- <-].
    destruct (IH g1 u1 u2 ys e1 t1 Hw Hrest) as (t2 & -> & Ht). by exists t2.
  - intros [= <- <- <-]. by exists u2.
  - intros [= <- <- <-]. by exists u2.
Qed.

(** A pass leaves the filesystem and the functions as they are. *)
Lemma consume_keeps_env (fuel : nat) (g : generator_state) (w : World) xs e w' :
  consume fuel g w = Some (xs, e, w') -> same_env w' w.
Proof.
  revert g w xs e. induction fuel as [|fuel IH]; intros g w xs e; [done|].
  cbn [consume]. pose proof (generator_next_keeps_env g w) as Hkeep.
  destruct (next g w) as [[[x| |err] g'] u]; simpl in Hkeep.
  - destruct (consume fuel g' u) as [[[ys e1] t1]|] eqn:Hrest; [|done].
    intros [= _ _ <-]. eapply same_env_trans; [exact (IH _ _ _ _ Hrest) | exact Hkeep].
  - by intros [= _ _ <-].
  - by intros [= _ _ <-].
Qed.

(** Where a pass leaves the record of accesses: one scan more when the
    pattern is taken, none otherwise. *)
Lemma consume_created_accesses (fuel : nat) (self : t) (w : World) xs e w' :
  consume fuel (Created self) w = Some (xs, e, w') ->
  accesses w'
  = accesses w
      ++ (if Pathlib.acceptable (pattern self)
          then [Scan (Pathlib.Path (file_path self)) (pattern self)] else []).
Proof.
  assert (Hloop : forall fuel files v ys e' v',
            consume fuel (Looping self files) v = Some (ys, e', v') -> v' = v).
  { clear. induction fuel as [|fuel IH]; intros files v ys e' v'; [done|].
    cbn [consume]. rewrite next_looping. unfold resume.
    destruct files as [|f files]; [by intros [= _ _ <-]|].
    destruct (call_tag_function v (tag_function self) (Pathlib.PathObj f)) as [tag|err].
    - destruct (consume fuel (Looping self files) v) as [[[zs e1] t1]|] eqn:Hrest; [|done].
      intros [= _ _ <-]. by eapply IH.
    - by intros [= _ _ <-]. }
  destruct fuel as [|fuel]; [done|]. cbn [consume]. rewrite next_created.
  unfold path_glob.
  destruct (Pathlib.acceptable (pattern self)) eqn:Hok.
  - destruct (glob_acceptable (filesystem w) (Pathlib.Path (file_path self))
                (pattern self) Hok) as (sel & _ & ->).
    set (files := if Pathlib.is_dir _ _ then _ else _). set (v := log _ w).
    intros Hpass.
    assert (consume (S fuel) (Looping self files) v = Some (xs, e, w')) as Hpass'.
    { cbn [consume]. by rewrite next_looping. }
    apply Hloop in Hpass'. by subst w'.
  - destruct (glob_not_acceptable (filesystem w) (Pathlib.Path (file_path self))
                (pattern self) Hok) as (err & ->).
    intros [= _ _ <-]. by rewrite app_nil_r.
Qed.

End Again.

(** X4.  A source object is not used up by being iterated.  After a
    pass over it, a second pass from the world the first one left
    hands over the same items and ends the same way; each pass scans
    the filesystem anew, so two scans are on record when the pattern
    is one [Path.glob] takes. *)
Theorem source_can_be_iterated_again
  (self : GlobSource.t) (w w1 : World) (fuel : nat)
  (xs : list item) (e : option exn) :
  consume fuel (Source.__iter__ (G := GlobSource.generator_state) self) w
  = Some (xs, e, w1) ->
  exists w2 : World,
    consume fuel (Source.__iter__ (G := GlobSource.generator_state) self) w1
    = Some (xs, e, w2)
    /\ accesses w2
       = accesses w
           ++ (if Pathlib.acceptable (GlobSource.pattern self)
               then [ Scan (Pathlib.Path (GlobSource.file_path self))
                        (GlobSource.pattern self);
                      Scan (Pathlib.Path (GlobSource.file_path self))
                        (GlobSource.pattern self) ]
               else []).
Proof.
  rewrite !consume_source_iter. intros Hfirst.
  pose proof (consume_created_accesses _ _ _ _ _ _ Hfirst) as Hlog1.
  pose proof (same_env_sym _ _ (consume_keeps_env _ _ _ _ _ _ Hfirst)) as Henv.
  destruct (consume_env fuel _ w w1 _ _ _ Henv Hfirst) as (w2 & Hsecond & _).
  exists w2. split; [done|].
  rewrite (consume_created_accesses _ _ _ _ _ _ Hsecond), Hlog1.
  rewrite <- app_assoc. by destruct (Pathlib.acceptable _).
Qed.

Lemma source_can_be_iterated_again_witness :
  exists w2 : World,
    consume 3 (Source.__iter__ (G := GlobSource.generator_state) Example.txt_source)
      (log (Scan (Pathlib.mkPath EmptyString ["data_dir"]) "*.txt") Example.world)
    = Some ([ ({[ "file_name" := VStr "a" ]}, {[ "txt_file" := VPath Example.a_txt ]});
              ({[ "file_name" := VStr "b" ]}, {[ "txt_file" := VPath Example.b_txt ]}) ],
            None, w2)
    /\ accesses w2
       = [ Scan (Pathlib.mkPath EmptyString ["data_dir"]) "*.txt";
           Scan (Pathlib.mkPath EmptyString ["data_dir"]) "*.txt" ].
Proof.
  apply (source_can_be_iterated_again Example.txt_source Example.world
           (log (Scan (Pathlib.mkPath EmptyString ["data_dir"]) "*.txt") Example.world) 3).
  vm_compute. reflexivity.
Defined.

(** ** Pulling from a source one item at a time *)

Section Pull.
Import GlobSource.

Lemma nexts_finished (n : nat) (w : World) :
  nexts n (Source.Finished (S := t) (G := generator_state)) w
  = (repeat Stop n, Source.Finished, w).
Proof. induction n as [|n IH]; simpl; [done|]. by rewrite IH. Qed.

(** The generator of [forward] is closed once it has stopped or
    raised. *)
Lemma ended_is_closed (g : generator_state) (w : World) :
  match (next g w).1.1 with
  | Yield _ => True
  | _ => (next g w).1.2 = Closed
  end.
Proof.
  assert (Hresume : forall self files v,
            match (resume self files v).1.1 with
            | Yield _ => True
            | _ => (resume self files v).1.2 = Closed
            end).
  { intros self [|f files] v; simpl; [done|].
    by destruct (call_tag_function v (tag_function self) (Pathlib.PathObj f)). }
  destruct g as [self|self files|]; [| apply Hresume | done].
  rewrite next_created.
  destruct (path_glob _ _ w) as [[files|err] v]; [apply Hresume | done].
Qed.

Lemma nexts_delegating (n : nat) (g : generator_state) (w : World) :
  (nexts n (Source.Delegating (S := t) g) w).1.1 = (nexts n g w).1.1
  /\ (nexts n (Source.Delegating (S := t) g) w).2 = (nexts n g w).2.
Proof.
  revert g w. induction n as [|n IH]; intros g w; [done|].
  rewrite !nexts_S_outcomes, !nexts_S_world.
  change (next (Source.Delegating g) w) with (Source.delegate (S := t) g w).
  unfold Source.delegate. pose proof (ended_is_closed g w) as Hend.
  destruct (next g w) as [[[x| |err] g'] w']; cbn [fst snd] in Hend |- *.
  - destruct (IH g' w') as [-> ->]. done.
  - subst g'. by rewrite nexts_finished, nexts_closed.
  - subst g'. by rewrite nexts_finished, nexts_closed.
Qed.

End Pull.

(** X5.  A consumer that pulls any number of items from a [GlobSource]
    object itself, stopping early or going on past the end, sees at
    every pull what it would see pulling from the stream of an
    invocation, and leaves the same world. *)
Theorem source_yields_like_its_stream_at_every_pull
  (self : GlobSource.t) (w : World) (n : nat) :
  (nexts n (Source.__iter__ (G := GlobSource.generator_state) self) w).1.1
  = (nexts n (SyncStream__iter__ (Operation__call__ self)) w).1.1
  /\ (nexts n (Source.__iter__ (G := GlobSource.generator_state) self) w).2
     = (nexts n (SyncStream__iter__ (Operation__call__ self)) w).2.
Proof.
  destruct n as [|n]; [done|].
  rewrite !nexts_S_outcomes, !nexts_S_world, next_source_created.
  rewrite <- !nexts_S_outcomes, <- !nexts_S_world.
  apply nexts_delegating.
Qed.

(** ** What [file_path] is used for *)

Section ThroughPath.
Import GlobSource.

Lemma nexts_looping_same_attributes (n : nat) (a b : t) files (w : World) :
  name a = name b -> tag_function a = tag_function b ->
  (nexts n (Looping a files) w).1.1 = (nexts n (Looping b files) w).1.1
  /\ (nexts n (Looping a files) w).2 = (nexts n (Looping b files) w).2.
Proof.
  intros Hname Htag. revert files w.
  induction n as [|n IH]; intros files w; [done|].
  rewrite !nexts_S_outcomes, !nexts_S_world, !next_looping.
  destruct files as [|f files]; cbn [resume fst snd].
  - by rewrite !nexts_closed.
  - rewrite Hname, Htag.
    destruct (call_tag_function w (tag_function b) (Pathlib.PathObj f)); cbn [fst snd].
    + destruct (IH files w) as [-> ->]. done.
    + by rewrite !nexts_closed.
Qed.

End ThroughPath.

(** X6.  [file_path] counts only through [Path(file_path)].  Two
    sources whose file paths give the same path (such as [data_dir] and
    [data_dir/], or a string and the path made from it) and that agree
    in name, pattern and tag function print the same and hand over the
    same items pull by pull. *)
Theorem file_path_counts_through_path_only
  (a b : GlobSource.t) (w : World) (n : nat) :
  Pathlib.Path (GlobSource.file_path a) = Pathlib.Path (GlobSource.file_path b) ->
  GlobSource.name a = GlobSource.name b ->
  GlobSource.pattern a = GlobSource.pattern b ->
  GlobSource.tag_function a = GlobSource.tag_function b ->
  GlobSource.__repr__ a = GlobSource.__repr__ b
  /\ (nexts n (SyncStream__iter__ (Operation__call__ a)) w).1.1
     = (nexts n (SyncStream__iter__ (Operation__call__ b)) w).1.1
  /\ (nexts n (SyncStream__iter__ (Operation__call__ a)) w).2
     = (nexts n (SyncStream__iter__ (Operation__call__ b)) w).2.
Proof.
  intros Hpath Hname Hpattern Htag. split.
  - unfold GlobSource.__repr__. by rewrite Hpath, Hname, Hpattern.
  - change (SyncStream__iter__ (Operation__call__ a)) with (GlobSource.Created a).
    change (SyncStream__iter__ (Operation__call__ b)) with (GlobSource.Created b).
    destruct n as [|n]; [done|].
    rewrite !nexts_S_outcomes, !nexts_S_world, !next_created.
    rewrite Hpath, Hpattern.
    destruct (path_glob (Pathlib.Path (GlobSource.file_path b)) (GlobSource.pattern b) w)
      as [[files|err] v].
    + rewrite <- !next_looping, <- !nexts_S_outcomes, <- !nexts_S_world.
      by apply nexts_looping_same_attributes.
    + done.
Qed.

(** [data_dir/] and [data_dir]: one string form, one stream, and yet
    two different tuples under [__hash__]. *)
Lemma file_path_counts_through_path_only_witness :
  (GlobSource.__repr__
     (GlobSource.mk "txt_file" (Pathlib.PathStr "data_dir/") "*.txt" (Some DefaultTagFunction))
   = GlobSource.__repr__ Example.txt_source
   /\ (nexts 3
         (SyncStream__iter__
            (Operation__call__
               (GlobSource.mk "txt_file" (Pathlib.PathStr "data_dir/") "*.txt"
                  (Some DefaultTagFunction))))
         Example.world).1.1
      = (nexts 3 (SyncStream__iter__ (Operation__call__ Example.txt_source))
           Example.world).1.1
   /\ (nexts 3
         (SyncStream__iter__
            (Operation__call__
               (GlobSource.mk "txt_file" (Pathlib.PathStr "data_dir/") "*.txt"
                  (Some DefaultTagFunction))))
         Example.world).2
      = (nexts 3 (SyncStream__iter__ (Operation__call__ Example.txt_source))
           Example.world).2)
  /\ bool_decide
       (GlobSource.identity
          (GlobSource.mk "txt_file" (Pathlib.PathStr "data_dir/") "*.txt"
             (Some DefaultTagFunction))
        = GlobSource.identity Example.txt_source)
     = false.
Proof.
  split.
  - apply (file_path_counts_through_path_only
             (GlobSource.mk "txt_file" (Pathlib.PathStr "data_dir/") "*.txt"
                (Some DefaultTagFunction))
             Example.txt_source Example.world 3); reflexivity.
  - vm_compute. reflexivity.
Defined.

(** ** An absolute pattern *)

(** X7.  A pattern that starts with a slash takes the place of
    [file_path] in the string form, which then shows the pattern alone;
    and the stream of such a source raises [NotImplementedError] at the
    first [next], without an item and without a scan. *)
Theorem absolute_pattern_replaces_file_path
  (self : GlobSource.t) (w : World) (fuel : nat) :
  PyStr.startswith "/" (GlobSource.pattern self) = true ->
  0 < fuel ->
  GlobSource.__repr__ self
  = "GlobSource(" +:+ Pathlib.str (Pathlib.parse_path (GlobSource.pattern self))
    +:+ ") ⇒ " +:+ GlobSource.name self
  /\ consume fuel (SyncStream__iter__ (Operation__call__ self)) w
     = Some ([], Some (NotImplementedError "Non-relative patterns are unsupported"), w).
Proof.
  intros Habs Hfuel. split.
  - unfold GlobSource.__repr__, Pathlib.truediv, Pathlib.posix_join. by rewrite Habs.
  - change (SyncStream__iter__ (Operation__call__ self)) with (GlobSource.Created self).
    destruct fuel as [|fuel]; [lia|]. cbn [consume]. rewrite next_created.
    unfold path_glob, Pathlib.glob, Pathlib.compile_pattern.
    assert (String.eqb (GlobSource.pattern self) EmptyString = false) as ->.
    { by destruct (GlobSource.pattern self). }
    rewrite parse_path_root.
    by destruct (splitroot_absolute _ Habs) as [-> | ->].
Qed.

Lemma absolute_pattern_replaces_file_path_witness :
  GlobSource.__repr__
    (GlobSource.mk "conf" (Pathlib.PathStr "data_dir") "/etc/*.conf" (Some DefaultTagFunction))
  = "GlobSource(/etc/*.conf) ⇒ conf"
  /\ consume 1
       (SyncStream__iter__
          (Operation__call__
             (GlobSource.mk "conf" (Pathlib.PathStr "data_dir") "/etc/*.conf"
                (Some DefaultTagFunction))))
       Example.world
     = Some ([], Some (NotImplementedError "Non-relative patterns are unsupported"),
             Example.world).
Proof.
  apply (absolute_pattern_replaces_file_path
           (GlobSource.mk "conf" (Pathlib.PathStr "data_dir") "/etc/*.conf"
              (Some DefaultTagFunction))
           Example.world 1).
  - reflexivity.
  - lia.
Defined.

(** ** Which files share a default tag *)

(** X8.  The default tag function looks at the stem alone: two files
    whose names are the same up to the extension get the same tag,
    whatever their directories, and a path given as a string gets the
    tag of the path object made from it. *)
Theorem default_tag_ignores_directory_and_extension
  (f g : Pathlib.PurePath) (base ext_f ext_g : string) :
  Pathlib.name f = base +:+ "." +:+ ext_f ->
  Pathlib.name g = base +:+ "." +:+ ext_g ->
  base <> EmptyString ->
  ext_f <> EmptyString -> PyStr.contains "." ext_f = false ->
  ext_g <> EmptyString -> PyStr.contains "." ext_g = false ->
  GlobSource.default_tag_function (Pathlib.PathObj f)
  = GlobSource.default_tag_function (Pathlib.PathObj g)
  /\ GlobSource.default_tag_function (Pathlib.PathObj f) = {[ "file_name" := VStr base ]}
  /\ forall s : string,
       Pathlib.parse_path s = f ->
       GlobSource.default_tag_function (Pathlib.PathStr s)
       = GlobSource.default_tag_function (Pathlib.PathObj f).
Proof.
  intros Hf Hg Hbase Hef Hdf Heg Hdg.
  unfold GlobSource.default_tag_function. cbn [Pathlib.Path].
  rewrite (stem_drops_extension f base ext_f), (stem_drops_extension g base ext_g) by done.
  split; [done|]. split; [done|]. intros s <-.
  by rewrite (stem_drops_extension _ base ext_f).
Qed.

Lemma default_tag_ignores_directory_and_extension_witness :
  GlobSource.default_tag_function (Pathlib.PathObj Example.a_txt)
  = GlobSource.default_tag_function
      (Pathlib.PathObj (Pathlib.mkPath "/" ["var"; "log"; "a.log"])).
Proof.
  refine (proj1 (default_tag_ignores_directory_and_extension
                   Example.a_txt (Pathlib.mkPath "/" ["var"; "log"; "a.log"])
                   "a" "txt" "log" _ _ _ _ _ _ _)); try reflexivity; discriminate.
Defined.

(** ** Which entries a pattern of one component picks *)

(** [Path.glob] for a pattern of one plain component: the entries of
    the directory whose names match, in listing order. *)
Lemma glob_plain_pattern fs root p es :
  plain p -> p <> ".." -> PyStr.contains2 "*" "*" p = false ->
  Pathlib.scandir fs root = Some es ->
  Pathlib.glob fs root p
  = Return ((fun e : string * Pathlib.kind => Pathlib.make_child_relpath root e.1)
              <$> filter (fun e => Fnmatch.fnmatch e.1 p = true) es).
Proof.
  intros Hplain Hparent Hstars Hscan.
  unfold Pathlib.glob. rewrite compile_plain_pattern by done.
  cbn [bind Pathlib.select_from]. f_equal.
  unfold Pathlib.is_dir, Pathlib.stat.
  unfold Pathlib.scandir in Hscan.
  destruct (Pathlib.resolve fs root) as [abs|] eqn:Habs; [|done].
  destruct (Pathlib.kind_at fs abs) as [[|]|] eqn:Hkind; try done.
  cbn [Pathlib._select_from]. unfold Pathlib.scandir. rewrite Habs, Hkind.
  injection Hscan as Hes. rewrite Hes. clear.
  induction es as [|e es IH]; [done|].
  cbn [flat_map]. rewrite IH. clear IH. cbn [andb].
  destruct (Fnmatch.fnmatch e.1 p) eqn:Hmatch.
  - by rewrite filter_cons_True.
  - rewrite filter_cons_False; [done|]. by rewrite Hmatch.
Qed.

(** A directory that cannot be listed is no directory. *)
Lemma glob_without_listing fs root p :
  Pathlib.acceptable p = true ->
  Pathlib.scandir fs root = None ->
  Pathlib.glob fs root p = Return [].
Proof.
  intros Hok Hscan.
  destruct (glob_acceptable fs root p Hok) as (sel & _ & ->).
  unfold Pathlib.is_dir, Pathlib.stat. unfold Pathlib.scandir in Hscan.
  destruct (Pathlib.resolve fs root) as [abs|]; [|done].
  by destruct (Pathlib.kind_at fs abs) as [[|]|].
Qed.

(** The lone star matches every name, hidden ones included. *)
Lemma fnmatch_star (name : string) : Fnmatch.fnmatch name "*" = true.
Proof.
  unfold Fnmatch.fnmatch. cbn [Fnmatch.translate Ascii.eqb Bool.eqb].
  induction name as [|a name IH]; [done|]. exact IH.
Qed.

(** X9.  With the default pattern, a [GlobSource] hands over one item
    for every entry of the directory, in listing order: subdirectories
    and hidden entries are items like any file. *)
Theorem default_pattern_lists_every_entry
  (self : GlobSource.t) (w : World) (es : list (string * Pathlib.kind)) (fuel : nat) :
  GlobSource.pattern self = GlobSource.default_pattern ->
  GlobSource.tag_function self = Some DefaultTagFunction ->
  Pathlib.scandir (filesystem w) (Pathlib.Path (GlobSource.file_path self)) = Some es ->
  length es < fuel ->
  consume fuel (SyncStream__iter__ (Operation__call__ self)) w
  = Some ((fun e =>
             let f := Pathlib.make_child_relpath
                        (Pathlib.Path (GlobSource.file_path self)) e.1 in
             (({[ "file_name" := VStr (Pathlib.stem f) ]} : Tag),
              ({[ GlobSource.name self := VPath f ]} : Packet)))
            <$> es,
          None,
          log (Scan (Pathlib.Path (GlobSource.file_path self)) GlobSource.default_pattern) w).
Proof.
  intros Hpattern Htag Hscan Hfuel.
  set (root := Pathlib.Path (GlobSource.file_path self)) in *.
  set (files := (fun e : string * Pathlib.kind => Pathlib.make_child_relpath root e.1)
                  <$> es).
  assert (Pathlib.glob (filesystem w) root (GlobSource.pattern self) = Return files)
    as Hglob.
  { rewrite Hpattern.
    rewrite (glob_plain_pattern _ _ _ es); [| by repeat split | done | done | done].
    do 2 f_equal. clear. induction es as [|e es IH]; [done|].
    rewrite filter_cons_True by apply fnmatch_star. by rewrite IH. }
  set (tags := (fun f => ({[ "file_name" := VStr (Pathlib.stem f) ]} : Tag)) <$> files).
  assert (zip_with (fun f tag => (tag, ({[ GlobSource.name self := VPath f ]} : Packet)))
            files tags
          = (fun e =>
               let f := Pathlib.make_child_relpath root e.1 in
               (({[ "file_name" := VStr (Pathlib.stem f) ]} : Tag),
                ({[ GlobSource.name self := VPath f ]} : Packet))) <$> es) as <-.
  { subst tags files. clear. induction es as [|e es IH]; [done|].
    cbn [fmap list_fmap zip_with]. f_equal. exact IH. }
  rewrite <- Hpattern. apply created_consume; [done| |].
  - rewrite Htag. subst tags. clear.
    induction files as [|f files IH]; simpl; by constructor.
  - subst files. by rewrite length_fmap.
Qed.

Lemma default_pattern_lists_every_entry_witness :
  consume 2
    (SyncStream__iter__
       (Operation__call__
          (GlobSource.mk "entry" (Pathlib.PathStr ".") GlobSource.default_pattern
             (Some DefaultTagFunction))))
    Example.world
  = Some ([ ({[ "file_name" := VStr "data_dir" ]},
             {[ "entry" := VPath (Pathlib.mkPath EmptyString ["data_dir"]) ]}) ],
          None,
          log (Scan (Pathlib.mkPath EmptyString []) "*") Example.world).
Proof.
  apply (default_pattern_lists_every_entry
           (GlobSource.mk "entry" (Pathlib.PathStr ".") GlobSource.default_pattern
              (Some DefaultTagFunction))
           Example.world [ ("data_dir", Pathlib.Dir) ] 2).
  - reflexivity.
  - reflexivity.
  - vm_compute. reflexivity.
  - simpl. lia.
Defined.

(** ** A file where a directory is expected *)

(** X10.  When [file_path] names a regular file, not a directory, and
    the pattern is one [Path.glob] takes, the stream is empty: no item
    and no error, after one scan. *)
Theorem regular_file_as_root_gives_empty_stream
  (self : GlobSource.t) (w : World) (fuel : nat) :
  Pathlib.stat (filesystem w) (Pathlib.Path (GlobSource.file_path self))
  = Some Pathlib.File ->
  Pathlib.acceptable (GlobSource.pattern self) = true ->
  0 < fuel ->
  consume fuel (SyncStream__iter__ (Operation__call__ self)) w
  = Some ([], None,
          log (Scan (Pathlib.Path (GlobSource.file_path self)) (GlobSource.pattern self)) w).
Proof.
  intros Hfile Hok Hfuel.
  apply (created_consume self w [] [] fuel); [| constructor | simpl; lia].
  apply glob_without_listing; [done|].
  unfold Pathlib.stat in Hfile. unfold Pathlib.scandir.
  destruct (Pathlib.resolve _ _) as [abs|]; [|done]. by rewrite Hfile.
Qed.

Lemma regular_file_as_root_gives_empty_stream_witness :
  consume 1
    (SyncStream__iter__
       (Operation__call__
          (GlobSource.mk "f" (Pathlib.PathStr "data_dir/a.txt") "*"
             (Some DefaultTagFunction))))
    Example.world
  = Some ([], None,
          log (Scan (Pathlib.mkPath EmptyString ["data_dir"; "a.txt"]) "*") Example.world).
Proof.
  apply (regular_file_as_root_gives_empty_stream
           (GlobSource.mk "f" (Pathlib.PathStr "data_dir/a.txt") "*"
              (Some DefaultTagFunction))
           Example.world 1).
  - vm_compute. reflexivity.
  - vm_compute. reflexivity.
  - lia.
Defined.

(** ** No entry twice *)

Section Once.
Import GlobSource.

(** A listing names each entry of the directory once, when the
    filesystem keeps one entry per path. *)
Lemma scandir_names_once fs root es :
  NoDup (fst <$> Pathlib.entries fs) ->
  Pathlib.scandir fs root = Some es ->
  NoDup (fst <$> es).
Proof.
  unfold Pathlib.scandir.
  destruct (Pathlib.resolve fs root) as [abs|]; [|done].
  destruct (Pathlib.kind_at fs abs) as [[|]|]; try done.
  intros Hkeys [= <-]. induction (Pathlib.entries fs) as [|[q k] l IH]; [constructor|].
  apply NoDup_cons in Hkeys as [Hq Hl]. cbn [omap list_omap fst snd].
  destruct (Pathlib.child_name abs q) as [n|] eqn:Hn; cbn [fmap option_fmap option_map];
    [| by apply IH].
  cbn [fmap list_fmap fst]. apply NoDup_cons. split; [| by apply IH].
  intros ([n' k'] & -> & Hin)%list_elem_of_fmap. simpl in Hin.
  apply list_elem_of_omap in Hin as ([q' k''] & Hq' & Hsame). simpl in Hsame.
  destruct (Pathlib.child_name abs q') as [m|] eqn:Hm; [|done].
  simpl in Hsame. injection Hsame as -> ->.
  apply child_name_inv in Hn, Hm. subst q q'.
  apply Hq. apply list_elem_of_fmap. by exists (abs ++ [n'], k').
Qed.

Lemma glob_plain_pattern_once fs root p :
  NoDup (fst <$> Pathlib.entries fs) ->
  plain p -> p <> ".." -> PyStr.contains2 "*" "*" p = false ->
  exists files, Pathlib.glob fs root p = Return files /\ NoDup files.
Proof.
  intros Hkeys Hplain Hparent Hstars.
  destruct (Pathlib.scandir fs root) as [es|] eqn:Hscan.
  - eexists. split; [by apply glob_plain_pattern|].
    pose proof (scandir_names_once fs root es Hkeys Hscan) as Hnames.
    apply (NoDup_fmap_2_strong (fun e : string * Pathlib.kind =>
                                  Pathlib.make_child_relpath root e.1)).
    + intros [n1 k1] [n2 k2] [_ H1]%list_elem_of_filter [_ H2]%list_elem_of_filter Heq.
      unfold Pathlib.make_child_relpath in Heq. simpl in Heq.
      injection Heq as Heq. apply app_inv_head in Heq. injection Heq as ->.
      clear -Hnames H1 H2. induction es as [|[n k] es IH]; [by apply elem_of_nil in H1|].
      cbn [fmap list_fmap fst] in Hnames. apply NoDup_cons in Hnames as [Hn Hes].
      apply elem_of_cons in H1 as [[= -> ->]|H1], H2 as [[= ->]|H2]; try done.
      * destruct Hn. apply list_elem_of_fmap. by exists (n, k2).
      * destruct Hn. apply list_elem_of_fmap. by exists (n, k1).
      * by apply IH.
    + apply NoDup_filter. by eapply NoDup_fmap_1.
  - exists []. split; [| constructor]. apply glob_without_listing; [|done].
    unfold Pathlib.acceptable. by rewrite compile_plain_pattern.
Qed.

(** What the loop has handed over when a pass is done: the items of a
    first part of the listing. *)
Lemma looping_consumed_prefix self fuel files w xs e w' :
  consume fuel (Looping self files) w = Some (xs, e, w') ->
  snd <$> xs
  = (fun f => ({[ name self := VPath f ]} : Packet)) <$> take (length xs) files.
Proof.
  revert files xs e w'. induction fuel as [|fuel IH]; intros files xs e w'; [done|].
  cbn [consume]. rewrite next_looping. unfold resume.
  destruct files as [|f files]; [by intros [= <- _ _]|].
  destruct (call_tag_function w (tag_function self) (Pathlib.PathObj f)) as [tag|err].
  - destruct (consume fuel (Looping self files) w) as [[[ys e1] t1]|] eqn:Hrest; [|done].
    intros [= <- _ _]. cbn [fmap list_fmap length take snd]. f_equal. by eapply IH.
  - by intros [= <- _ _].
Qed.

End Once.

(** X11.  No entry is handed over twice.  On a filesystem that keeps
    one entry per path, and for a pattern of one plain component, the
    packets of a pass over the stream are pairwise different, whatever
    the tag function does. *)
Theorem no_entry_is_handed_over_twice
  (self : GlobSource.t) (w w' : World) (fuel : nat)
  (xs : list item) (e : option exn) :
  NoDup (fst <$> Pathlib.entries (filesystem w)) ->
  plain (GlobSource.pattern self) ->
  GlobSource.pattern self <> ".." ->
  PyStr.contains2 "*" "*" (GlobSource.pattern self) = false ->
  consume fuel (SyncStream__iter__ (Operation__call__ self)) w = Some (xs, e, w') ->
  NoDup (snd <$> xs).
Proof.
  intros Hkeys Hplain Hparent Hstars.
  change (SyncStream__iter__ (Operation__call__ self)) with (GlobSource.Created self).
  destruct (glob_plain_pattern_once (filesystem w)
              (Pathlib.Path (GlobSource.file_path self)) (GlobSource.pattern self)
              Hkeys Hplain Hparent Hstars) as (files & Hglob & Hfiles).
  destruct fuel as [|fuel]; [done|]. cbn [consume].
  rewrite (next_created_glob _ _ _ Hglob). intros Hpass.
  rewrite (looping_consumed_prefix self (S fuel) files
             (log (Scan (Pathlib.Path (GlobSource.file_path self))
                     (GlobSource.pattern self)) w) xs e w').
  - apply NoDup_fmap_2_strong.
    + intros f g _ _ Heq.
      apply (f_equal (fun m : Packet => m !! GlobSource.name self)) in Heq.
      rewrite !lookup_singleton_eq in Heq. by injection Heq.
    + eapply sublist_NoDup; [exact Hfiles | apply sublist_take].
  - cbn [consume]. exact Hpass.
Qed.

Lemma no_entry_is_handed_over_twice_witness :
  NoDup (snd <$> [ (({[ "file_name" := VStr "a" ]} : Tag),
                    ({[ "txt_file" := VPath Example.a_txt ]} : Packet));
                   (({[ "file_name" := VStr "b" ]} : Tag),
                    ({[ "txt_file" := VPath Example.b_txt ]} : Packet)) ]).
Proof.
  apply (no_entry_is_handed_over_twice Example.txt_source Example.world
           (log (Scan (Pathlib.mkPath EmptyString ["data_dir"]) "*.txt") Example.world)
           3 _ None).
  - apply (bool_decide_unpack _). vm_compute. exact I.
  - repeat split; discriminate.
  - discriminate.
  - reflexivity.
  - vm_compute. reflexivity.
Defined.

(** ** The current directory *)

(** X12.  A source over the current directory, given as [.] or as the
    empty string, shows the pattern alone in its string form: for a
    plain pattern [p] it reads [GlobSource(p) ⇒ name], and both ways of
    naming the directory give the same path, hence the same stream. *)
Theorem current_directory_is_not_shown (self : GlobSource.t) :
  GlobSource.file_path self = Pathlib.PathStr "."
  \/ GlobSource.file_path self = Pathlib.PathStr EmptyString ->
  plain (GlobSource.pattern self) ->
  GlobSource.__repr__ self
  = "GlobSource(" +:+ GlobSource.pattern self +:+ ") ⇒ " +:+ GlobSource.name self
  /\ Pathlib.Path (GlobSource.file_path self) = Pathlib.mkPath EmptyString [].
Proof.
  intros Hhere Hplain. pose proof Hplain as (Hne & Hdot & Hslash).
  assert (Pathlib.Path (GlobSource.file_path self) = Pathlib.mkPath EmptyString [])
    as Hpath by (by destruct Hhere as [-> | ->]).
  split; [| done].
  unfold GlobSource.__repr__, Pathlib.truediv. rewrite Hpath.
  change (Pathlib.str (Pathlib.mkPath EmptyString [])) with ".".
  unfold Pathlib.posix_join.
  assert (PyStr.startswith "/" (GlobSource.pattern self) = false) as ->.
  { destruct (GlobSource.pattern self) as [|a p]; [done|].
    simpl in *. by apply orb_false_iff in Hslash as [-> _]. }
  cbn [String.eqb Ascii.eqb Bool.eqb orb PyStr.endswith].
  unfold Pathlib.parse_path.
  change (Pathlib.splitroot ("." +:+ "/" +:+ GlobSource.pattern self))
    with (EmptyString, "." +:+ "/" +:+ GlobSource.pattern self).
  cbv beta iota. rewrite split_two by done.
  rewrite filter_cons_False by (intros [_ H]; by apply H).
  rewrite filter_cons_True, filter_nil by done.
  unfold Pathlib.str. cbn [Pathlib.root Pathlib.tail String.concat].
  by destruct (GlobSource.pattern self).
Qed.

Lemma current_directory_is_not_shown_witness :
  GlobSource.__repr__
    (GlobSource.mk "txt_file" (Pathlib.PathStr ".") "*.txt" (Some DefaultTagFunction))
  = "GlobSource(*.txt) ⇒ txt_file".
Proof.
  refine (proj1 (current_directory_is_not_shown
                   (GlobSource.mk "txt_file" (Pathlib.PathStr ".") "*.txt"
                      (Some DefaultTagFunction)) _ _)).
  - by left.
  - repeat split; discriminate.
Defined.
